(** * ConsolePage: the conversation/session orchestration core

    A shallow embedding of the handlers of [ConsolePage] (the React page
    that wires a [WavRecorder], a [WavStreamPlayer] and a [RealtimeClient]
    together) and of [conversation_config.js].

    Conventions of the embedding
    - React state variables and refs are the fields of [page]; a handler
      reads the values of the render it was created in, and the page is
      re-rendered between two handler invocations, so a handler reads the
      fields of the state it is started in.
    - The three adapters are interfaces ([WavRecorder], [WavStreamPlayer],
      [RealtimeClient]); every command of an adapter may complete normally
      or throw (a rejected promise of an awaited call is a throw).
    - Every state setter, every timer call and every adapter command is
      appended, in program order, to the [trace] of the world; a command is
      logged together with the way it completed.
    - Conversation items are JavaScript objects shared between the client,
      the event and the page: they live in a store ([heap]) and are passed
      around by reference ([loc]). *)

From Stdlib Require Import ZArith NArith Ascii String List Bool Lia.
From stdpp Require Import base option list strings gmap.
Open Scope string_scope.
Open Scope Z_scope.
Open Scope list_scope.

(** ** JavaScript values used by the page *)

(** A JavaScript completion: normal, or abrupt by [throw]. *)
Inductive js_error : Type :=
| TypeError (msg : string)
| Rejected (reason : string).

Inductive completion (A : Type) : Type :=
| Return (a : A)
| Throw (e : js_error).
Arguments Return {A} a.
Arguments Throw {A} e.

Definition is_return {A : Type} (c : completion A) : bool :=
  match c with Return _ => true | Throw _ => false end.

(** Text typed by the user is a sequence of UTF-16 code units. *)
Definition jsstring : Type := list N.

Definition utf16 (s : string) : jsstring :=
  map N_of_ascii (list_ascii_of_string s).

(** WhiteSpace and LineTerminator code points of ECMAScript, the ones
    [String.prototype.trim] strips. *)
Definition is_white_space (c : N) : bool :=
  ((c =? 9) || (c =? 10) || (c =? 11) || (c =? 12) || (c =? 13) || (c =? 32)
   || (c =? 160) || (c =? 5760) || ((8192 <=? c) && (c <=? 8202))
   || (c =? 8232) || (c =? 8233) || (c =? 8239) || (c =? 8287)
   || (c =? 12288) || (c =? 65279))%N.

Fixpoint trimStart (s : jsstring) : jsstring :=
  match s with
  | [] => []
  | c :: s' => if is_white_space c then trimStart s' else s
  end.

Definition trimEnd (s : jsstring) : jsstring := rev (trimStart (rev s)).

Definition trim (s : jsstring) : jsstring := trimEnd (trimStart s).

(** Truthiness of the values the page tests. *)
Definition truthy_jsstring (s : jsstring) : bool :=
  match s with [] => false | _ => true end.

Definition truthy_string (s : string) : bool :=
  match s with EmptyString => false | _ => true end.

Definition truthy_length {A : Type} (l : list A) : bool :=
  match l with [] => false | _ => true end.

(** ** conversation_config.js *)

Definition dquote : string := String (ascii_of_nat 34) EmptyString.
Definition nl : string := String (ascii_of_nat 10) EmptyString.

Definition instructions : string :=
  ("System settings:" ++ nl ++
  "Tool use: enabled." ++ nl ++
  nl ++
  "Instructions:" ++ nl ++
  "- You are an artificial intelligence agent responsible for helping writing email marketing using realtime voice capabilities" ++ nl ++
  "- Please make sure to respond with a helpful voice via audio" ++ nl ++
  "- Be kind, helpful, and curteous" ++ nl ++
  "- It is okay to ask the user questions, but be proactive and suggest ideas" ++ nl ++
  "- Use tools and functions you have available liberally, as you suggest copy you can write it using the tools - Always call the edit text area with the key " ++ dquote ++ "email_body" ++ dquote ++ " as you suggest copy" ++ nl ++
  "- Be open to exploration and conversation" ++ nl ++
  nl ++
  "Personality:" ++ nl ++
  "- Be upbeat and genuine" ++ nl ++
  "- Try speaking quickly as if excited" ++ nl)%string.

(** ** Data model of ConsolePage *)

Inductive event_source : Type := client_source | server_source.

(** [interface RealtimeEvent]: [count] is optional, [event] is an object
    used as a map; only its ["type"] key is read by the page. *)
Record RealtimeEvent : Type := mkRealtimeEvent {
  time : string;
  source : event_source;
  count : option Z;
  event : gmap string string
}.

Definition event_type (e : RealtimeEvent) : option string :=
  event e !! "type".

Definition set_count (c : option Z) (e : RealtimeEvent) : RealtimeEvent :=
  {| time := time e; source := source e; count := c; event := event e |}.

Record EmailMarketingContent : Type := mkEmail {
  subject : string;
  body : string
}.

(** The artifact returned by [WavRecorder.decode]; opaque to the page. *)
Inductive WavFile : Type := wav_handle (n : N).

Record ItemFormatted : Type := mkFormatted {
  audio : option (list Z);
  file : option WavFile;
  transcript : option string;
  text : option string
}.

Record Item : Type := mkItem {
  id : string;
  role : option string;
  status : string;
  formatted : ItemFormatted
}.

Definition set_file (f : WavFile) (it : Item) : Item :=
  {| id := id it; role := role it; status := status it;
     formatted := {| audio := audio (formatted it); file := Some f;
                     transcript := transcript (formatted it);
                     text := text (formatted it) |} |}.

(** References to item objects. *)
Definition loc : Type := positive.

Record Delta : Type := mkDelta {
  delta_audio : option (list Z)
}.

(** The value returned by [wavStreamPlayer.interrupt()] when defined;
    [trackId] is [null] when nothing was playing. *)
Record TrackSampleOffset : Type := mkTrackSampleOffset {
  trackId : option string;
  offset : Z
}.

(** ** The realtime.event handler (state updater of [realtimeEvents]) *)

(** [realtimeEvents[realtimeEvents.length - 1]]: [undefined] on []. *)
Definition lastEvent_of (realtimeEvents : list RealtimeEvent) : option RealtimeEvent :=
  last realtimeEvents.

(** The updater passed to [setRealtimeEvents]. [lastEvent?.event.type] is
    [undefined] for an empty log, and so is the type of a payload without a
    ["type"] key: the two are then [===], and the assignment to
    [lastEvent.count] throws. *)
Definition realtime_event_updater (realtimeEvent : RealtimeEvent)
    (realtimeEvents : list RealtimeEvent) : completion (list RealtimeEvent) :=
  let lastEvent := lastEvent_of realtimeEvents in
  if decide ((lastEvent ≫= event_type) = event_type realtimeEvent) then
    match lastEvent with
    | None => Throw (TypeError "Cannot set properties of undefined (setting 'count')")
    | Some lastEvent =>
        let lastEvent' := set_count (Some (default 0 (count lastEvent) + 1)) lastEvent in
        Return (removelast realtimeEvents ++ [lastEvent'])
    end
  else Return (realtimeEvents ++ [realtimeEvent]).

(** Delivering a sequence of events, one at a time in arrival order. *)
Fixpoint deliver_events (evs : list RealtimeEvent) (log : list RealtimeEvent)
    : completion (list RealtimeEvent) :=
  match evs with
  | [] => Return log
  | e :: evs' =>
      match realtime_event_updater e log with
      | Return log' => deliver_events evs' log'
      | Throw err => Throw err
      end
  end.

(** ** Effects: adapter commands and state setters *)

Inductive session_update : Type :=
| upd_instructions (s : string)
| upd_input_audio_transcription (model : string)
| upd_turn_detection (turn_detection : option string).

Record content_part : Type := mkPart {
  part_type : string;
  part_text : jsstring
}.

Inductive command : Type :=
| RecorderBegin
| RecorderRecord
| RecorderPause
| RecorderEnd
| RecorderDecode (a : list Z) (fromRate toRate : Z)
| PlayerConnect
| PlayerInterrupt
| PlayerAdd16BitPCM (chunk : list Z) (track : string)
| ClientConnect
| ClientDisconnect
| ClientReset
| ClientUpdateSession (u : session_update)
| ClientAddTool (name : string)
| ClientOn (eventName : string)
| ClientSendUserMessageContent (parts : list content_part)
| ClientAppendInputAudio (mono : list Z)
| ClientCreateResponse
| ClientCancelResponse (track : string) (sampleOffset : Z).

Inductive effect : Type :=
| Call (c : command) (completed : bool)
| SetStartTime (t : string)
| SetItems (l : list loc)
| SetRealtimeEvents (l : list RealtimeEvent)
| SetIsConnected (b : bool)
| SetIsRecording (b : bool)
| SetMemoryKv (m : gmap string string)
| SetEmailContent (e : EmailMarketingContent)
| SetIsChatOpen (b : bool)
| SetIsVADMode (b : bool)
| SetTextMessage (s : jsstring)
| SetRecordingDuration (n : Z)
| SetIsListening (b : bool)
| SetItemFile (l : loc) (f : WavFile)
| SetInterval (timer : positive)
| ClearInterval (timer : positive)
| ConsoleError (msg : string).

(** ** The adapters, as interfaces *)

(** The surface of [WavRecorder] the page uses. [rec_decode] is the static
    [WavRecorder.decode]. *)
Class WavRecorder (R : Type) : Type := {
  rec_begin : R -> completion unit * R;
  rec_record : R -> completion unit * R;
  rec_pause : R -> completion unit * R;
  rec_end : R -> completion unit * R;
  rec_getStatus : R -> string;
  rec_decode : list Z -> Z -> Z -> completion WavFile
}.

(** The surface of [WavStreamPlayer] the page uses. *)
Class WavStreamPlayer (P : Type) : Type := {
  wsp_connect : P -> completion unit * P;
  wsp_add16BitPCM : list Z -> string -> P -> completion unit * P;
  wsp_interrupt : P -> completion (option TrackSampleOffset) * P
}.

(** The surface of [RealtimeClient] the page uses. *)
Class RealtimeClient (C : Type) : Type := {
  rc_connect : C -> completion unit * C;
  rc_disconnect : C -> completion unit * C;
  rc_reset : C -> completion unit * C;
  rc_isConnected : C -> bool;
  rc_updateSession : session_update -> C -> completion unit * C;
  rc_addTool : string -> C -> completion unit * C;
  rc_on : string -> C -> completion unit * C;
  rc_sendUserMessageContent : list content_part -> C -> completion unit * C;
  rc_appendInputAudio : list Z -> C -> completion unit * C;
  rc_createResponse : C -> completion unit * C;
  rc_cancelResponse : string -> Z -> C -> completion unit * C;
  rc_getItems : C -> list loc
}.

(** ** The page: React state variables and refs of [ConsolePage] *)

Record page : Type := mkPage {
  startTimeRef : string;
  items : list loc;
  realtimeEvents : list RealtimeEvent;
  isConnected : bool;
  isRecording : bool;
  memoryKv : gmap string string;
  emailContent : EmailMarketingContent;
  isChatOpen : bool;
  isVADMode : bool;
  textMessage : jsstring;
  recordingDuration : Z;
  recordingTimer : option positive;
  isListening : bool
}.

(** The values [useState]/[useRef] are given at the first render. *)
Definition initial_page (now : string) : page :=
  {| startTimeRef := now; items := []; realtimeEvents := [];
     isConnected := false; isRecording := false; memoryKv := ∅;
     emailContent := {| subject := ""; body := "" |};
     isChatOpen := false; isVADMode := false; textMessage := [];
     recordingDuration := 0; recordingTimer := None; isListening := false |}.

Definition with_startTimeRef (v : string) (p : page) : page :=
  mkPage v (items p) (realtimeEvents p) (isConnected p) (isRecording p)
    (memoryKv p) (emailContent p) (isChatOpen p) (isVADMode p)
    (textMessage p) (recordingDuration p) (recordingTimer p) (isListening p).
Definition with_items (v : list loc) (p : page) : page :=
  mkPage (startTimeRef p) v (realtimeEvents p) (isConnected p) (isRecording p)
    (memoryKv p) (emailContent p) (isChatOpen p) (isVADMode p)
    (textMessage p) (recordingDuration p) (recordingTimer p) (isListening p).
Definition with_realtimeEvents (v : list RealtimeEvent) (p : page) : page :=
  mkPage (startTimeRef p) (items p) v (isConnected p) (isRecording p)
    (memoryKv p) (emailContent p) (isChatOpen p) (isVADMode p)
    (textMessage p) (recordingDuration p) (recordingTimer p) (isListening p).
Definition with_isConnected (v : bool) (p : page) : page :=
  mkPage (startTimeRef p) (items p) (realtimeEvents p) v (isRecording p)
    (memoryKv p) (emailContent p) (isChatOpen p) (isVADMode p)
    (textMessage p) (recordingDuration p) (recordingTimer p) (isListening p).
Definition with_isRecording (v : bool) (p : page) : page :=
  mkPage (startTimeRef p) (items p) (realtimeEvents p) (isConnected p) v
    (memoryKv p) (emailContent p) (isChatOpen p) (isVADMode p)
    (textMessage p) (recordingDuration p) (recordingTimer p) (isListening p).
Definition with_memoryKv (v : gmap string string) (p : page) : page :=
  mkPage (startTimeRef p) (items p) (realtimeEvents p) (isConnected p)
    (isRecording p) v (emailContent p) (isChatOpen p) (isVADMode p)
    (textMessage p) (recordingDuration p) (recordingTimer p) (isListening p).
Definition with_emailContent (v : EmailMarketingContent) (p : page) : page :=
  mkPage (startTimeRef p) (items p) (realtimeEvents p) (isConnected p)
    (isRecording p) (memoryKv p) v (isChatOpen p) (isVADMode p)
    (textMessage p) (recordingDuration p) (recordingTimer p) (isListening p).
Definition with_isChatOpen (v : bool) (p : page) : page :=
  mkPage (startTimeRef p) (items p) (realtimeEvents p) (isConnected p)
    (isRecording p) (memoryKv p) (emailContent p) v (isVADMode p)
    (textMessage p) (recordingDuration p) (recordingTimer p) (isListening p).
Definition with_isVADMode (v : bool) (p : page) : page :=
  mkPage (startTimeRef p) (items p) (realtimeEvents p) (isConnected p)
    (isRecording p) (memoryKv p) (emailContent p) (isChatOpen p) v
    (textMessage p) (recordingDuration p) (recordingTimer p) (isListening p).
Definition with_textMessage (v : jsstring) (p : page) : page :=
  mkPage (startTimeRef p) (items p) (realtimeEvents p) (isConnected p)
    (isRecording p) (memoryKv p) (emailContent p) (isChatOpen p) (isVADMode p)
    v (recordingDuration p) (recordingTimer p) (isListening p).
Definition with_recordingDuration (v : Z) (p : page) : page :=
  mkPage (startTimeRef p) (items p) (realtimeEvents p) (isConnected p)
    (isRecording p) (memoryKv p) (emailContent p) (isChatOpen p) (isVADMode p)
    (textMessage p) v (recordingTimer p) (isListening p).
Definition with_recordingTimer (v : option positive) (p : page) : page :=
  mkPage (startTimeRef p) (items p) (realtimeEvents p) (isConnected p)
    (isRecording p) (memoryKv p) (emailContent p) (isChatOpen p) (isVADMode p)
    (textMessage p) (recordingDuration p) v (isListening p).
Definition with_isListening (v : bool) (p : page) : page :=
  mkPage (startTimeRef p) (items p) (realtimeEvents p) (isConnected p)
    (isRecording p) (memoryKv p) (emailContent p) (isChatOpen p) (isVADMode p)
    (textMessage p) (recordingDuration p) (recordingTimer p) v.

(** [newKv[key] = value] on a copy of the object: an own property is
    written, except for the key ["__proto__"], whose setter ignores a
    string value and writes nothing. *)
Definition object_assign_key (key value : string) (o : gmap string string)
    : gmap string string :=
  if decide (key = "__proto__") then o else <[key := value]> o.

(** Values a tool handler resolves to. *)
Inductive tool_result : Type :=
| set_memory_result (ok : bool)
| edit_email_result (success : bool) (message : string).

Declare Scope js_scope.
Delimit Scope js_scope with js.

Section ConsolePage.

Context {R P C : Type}.
Context `{!WavRecorder R, !WavStreamPlayer P, !RealtimeClient C}.

(** ** The world a handler runs in *)

Record world : Type := mkWorld {
  ui : page;
  recorder : R;
  player : P;
  client : C;
  heap : gmap loc Item;
  next_timer : positive;
  active_timers : list positive;
  trace : list effect
}.

Definition M (A : Type) : Type := world -> completion A * world.

Definition ret {A : Type} (a : A) : M A := fun w => (Return a, w).

Definition bind {A B : Type} (m : M A) (k : A -> M B) : M B :=
  fun w =>
    match m w with
    | (Return a, w') => k a w'
    | (Throw e, w') => (Throw e, w')
    end.

Notation "x <- c1 ;; c2" := (bind c1 (fun x => c2))
  (at level 100, c1 at next level, right associativity) : js_scope.
Notation "c1 ;; c2" := (bind c1 (fun _ => c2))
  (at level 100, right associativity) : js_scope.
Local Open Scope js_scope.

Definition log (e : effect) (w : world) : world :=
  mkWorld (ui w) (recorder w) (player w) (client w) (heap w)
    (next_timer w) (active_timers w) (trace w ++ [e]).

(** A state setter: the field is replaced and the setter is logged. *)
Definition set_state (f : page -> page) (e : effect) : M unit :=
  fun w =>
    (Return tt,
     log e (mkWorld (f (ui w)) (recorder w) (player w) (client w) (heap w)
              (next_timer w) (active_timers w) (trace w))).

(** The values of the current render (and the current values of the refs). *)
Definition render : M page := fun w => (Return (ui w), w).

(** Commands of the three adapters. *)
Definition on_recorder (c : command) (f : R -> completion unit * R) : M unit :=
  fun w =>
    let '(r, x) := f (recorder w) in
    (r, log (Call c (is_return r))
          (mkWorld (ui w) x (player w) (client w) (heap w)
             (next_timer w) (active_timers w) (trace w))).

Definition on_player {A : Type} (c : command) (f : P -> completion A * P) : M A :=
  fun w =>
    let '(r, x) := f (player w) in
    (r, log (Call c (is_return r))
          (mkWorld (ui w) (recorder w) x (client w) (heap w)
             (next_timer w) (active_timers w) (trace w))).

Definition on_client (c : command) (f : C -> completion unit * C) : M unit :=
  fun w =>
    let '(r, x) := f (client w) in
    (r, log (Call c (is_return r))
          (mkWorld (ui w) (recorder w) (player w) x (heap w)
             (next_timer w) (active_timers w) (trace w))).

Definition decode (a : list Z) (fromRate toRate : Z) : M WavFile :=
  fun w =>
    let r := rec_decode (R := R) a fromRate toRate in
    (r, log (Call (RecorderDecode a fromRate toRate) (is_return r)) w).

(** Getters of the adapters. *)
Definition getStatus : M string := fun w => (Return (rec_getStatus (recorder w)), w).
Definition client_isConnected : M bool := fun w => (Return (rc_isConnected (client w)), w).
Definition getItems : M (list loc) := fun w => (Return (rc_getItems (client w)), w).

(** Reading through a reference to an item object. *)
Definition deref (l : loc) : M Item :=
  fun w =>
    match heap w !! l with
    | Some it => (Return it, w)
    | None => (Throw (TypeError "Cannot read properties of undefined"), w)
    end.

(** [item.formatted.file = wavFile]: the shared object is updated in place. *)
Definition assign_file (l : loc) (f : WavFile) : M unit :=
  fun w =>
    (Return tt,
     log (SetItemFile l f)
       (mkWorld (ui w) (recorder w) (player w) (client w)
          (alter (set_file f) l (heap w))
          (next_timer w) (active_timers w) (trace w))).

(** [setInterval] hands out a fresh timer; [clearInterval] cancels one. *)
Definition setInterval : M positive :=
  fun w =>
    let t := next_timer w in
    (Return t,
     log (SetInterval t)
       (mkWorld (ui w) (recorder w) (player w) (client w) (heap w)
          (Pos.succ t) (t :: active_timers w) (trace w))).

Definition clearInterval (t : positive) : M unit :=
  fun w =>
    (Return tt,
     log (ClearInterval t)
       (mkWorld (ui w) (recorder w) (player w) (client w) (heap w)
          (next_timer w) (filter (fun x => x ≠ t) (active_timers w)) (trace w))).

Definition console_error (msg : string) : M unit :=
  fun w => (Return tt, log (ConsoleError msg) w).

(** The state setters of the page. *)
Definition setItems (v : list loc) : M unit := set_state (with_items v) (SetItems v).
Definition setRealtimeEvents (v : list RealtimeEvent) : M unit :=
  set_state (with_realtimeEvents v) (SetRealtimeEvents v).
Definition setIsConnected (v : bool) : M unit :=
  set_state (with_isConnected v) (SetIsConnected v).
Definition setIsRecording (v : bool) : M unit :=
  set_state (with_isRecording v) (SetIsRecording v).
Definition setMemoryKv (v : gmap string string) : M unit :=
  set_state (with_memoryKv v) (SetMemoryKv v).
Definition setEmailContent (v : EmailMarketingContent) : M unit :=
  set_state (with_emailContent v) (SetEmailContent v).
Definition setIsChatOpen (v : bool) : M unit :=
  set_state (with_isChatOpen v) (SetIsChatOpen v).
Definition setIsVADMode (v : bool) : M unit :=
  set_state (with_isVADMode v) (SetIsVADMode v).
Definition setTextMessage (v : jsstring) : M unit :=
  set_state (with_textMessage v) (SetTextMessage v).
Definition setRecordingDuration (v : Z) : M unit :=
  set_state (with_recordingDuration v) (SetRecordingDuration v).
Definition setIsListening (v : bool) : M unit :=
  set_state (with_isListening v) (SetIsListening v).
Definition set_startTimeRef (v : string) : M unit :=
  set_state (with_startTimeRef v) (SetStartTime v).
Definition set_recordingTimer (v : positive) : M unit :=
  fun w =>
    (Return tt,
     mkWorld (with_recordingTimer (Some v) (ui w)) (recorder w) (player w)
       (client w) (heap w) (next_timer w) (active_timers w) (trace w)).

(** Setters given an updater function of the previous value. *)
Definition setMemoryKv_with (f : gmap string string -> gmap string string) : M unit :=
  fun w => setMemoryKv (f (memoryKv (ui w))) w.
Definition setEmailContent_with (f : EmailMarketingContent -> EmailMarketingContent) : M unit :=
  fun w => setEmailContent (f (emailContent (ui w))) w.
Definition setRecordingDuration_with (f : Z -> Z) : M unit :=
  fun w => setRecordingDuration (f (recordingDuration (ui w))) w.
Definition setRealtimeEvents_with
    (f : list RealtimeEvent -> completion (list RealtimeEvent)) : M unit :=
  fun w =>
    match f (realtimeEvents (ui w)) with
    | Return v => setRealtimeEvents v w
    | Throw e => (Throw e, w)
    end.

(** ** The handlers of [ConsolePage] *)

(** The callback given to [wavRecorder.record]. *)
Definition on_audio_chunk (mono : list Z) : M unit :=
  on_client (ClientAppendInputAudio mono) (rc_appendInputAudio mono).

Definition disconnectConversation : M unit :=
  setIsConnected false ;;
  setRealtimeEvents [] ;;
  setItems [] ;;
  setMemoryKv ∅ ;;
  setIsChatOpen false ;;
  on_client ClientDisconnect rc_disconnect ;;
  on_recorder RecorderEnd rec_end ;;
  _ <- on_player PlayerInterrupt wsp_interrupt ;;
  ret tt.

Definition hello : list content_part :=
  [ {| part_type := "input_text"; part_text := utf16 "Hello!" |} ].

(** [now] is the value of [new Date().toISOString()]. *)
Definition connectConversation (now : string) : M unit :=
  p <- render ;;
  if isConnected p then disconnectConversation
  else
    set_startTimeRef now ;;
    setIsConnected true ;;
    setRealtimeEvents [] ;;
    its <- getItems ;;
    setItems its ;;
    setIsChatOpen true ;;
    on_recorder RecorderBegin rec_begin ;;
    on_player PlayerConnect wsp_connect ;;
    on_client ClientConnect rc_connect ;;
    on_client (ClientSendUserMessageContent hello) (rc_sendUserMessageContent hello) ;;
    on_client (ClientUpdateSession (upd_turn_detection None))
      (rc_updateSession (upd_turn_detection None)).

Definition turn_detection_of (value : string) : session_update :=
  upd_turn_detection (if decide (value = "none") then None else Some "server_vad").

Definition changeTurnEndType (value : string) : M unit :=
  st <- getStatus ;;
  (if bool_decide (value = "none") && bool_decide (st = "recording")
   then on_recorder RecorderPause rec_pause else ret tt) ;;
  on_client (ClientUpdateSession (turn_detection_of value))
    (rc_updateSession (turn_detection_of value)) ;;
  setIsVADMode (bool_decide (value = "server_vad")) ;;
  connected <- client_isConnected ;;
  if bool_decide (value = "server_vad") && connected then
    setIsListening true ;;
    on_recorder RecorderRecord rec_record
  else
    setIsListening false ;;
    on_recorder RecorderPause rec_pause.

Definition toggleListening : M unit :=
  p <- render ;;
  if isListening p then
    setIsListening false ;;
    on_recorder RecorderPause rec_pause ;;
    on_client ClientCreateResponse rc_createResponse
  else
    setIsListening true ;;
    on_recorder RecorderRecord rec_record.

Definition stopRecording : M unit :=
  setIsRecording false ;;
  on_recorder RecorderPause rec_pause ;;
  on_client ClientCreateResponse rc_createResponse.

Definition stopPlayback : M unit :=
  _ <- on_player PlayerInterrupt wsp_interrupt ;;
  ret tt.

Definition handlePushToTalk : M unit :=
  p <- render ;;
  if negb (isConnected p) || isVADMode p then ret tt
  else if negb (isRecording p) then
    stopPlayback ;;
    setIsRecording true ;;
    setRecordingDuration 0 ;;
    on_recorder RecorderRecord rec_record ;;
    t <- setInterval ;;
    set_recordingTimer t
  else ret tt.

(** The callback given to [setInterval]. *)
Definition on_recording_timer : M unit :=
  setRecordingDuration_with (fun prev => prev + 1).

Definition handlePushToTalkEnd : M unit :=
  p <- render ;;
  if isRecording p then
    stopRecording ;;
    q <- render ;;
    match recordingTimer q with
    | Some t => clearInterval t
    | None => ret tt
    end
  else ret tt.

Definition sendTextMessage : M unit :=
  p <- render ;;
  if negb (isConnected p) || negb (truthy_jsstring (trim (textMessage p))) then ret tt
  else
    stopPlayback ;;
    let parts := [ {| part_type := "input_text"; part_text := textMessage p |} ] in
    on_client (ClientSendUserMessageContent parts) (rc_sendUserMessageContent parts) ;;
    setTextMessage [].

Definition handleKeyDown (key : string) (shiftKey : bool) : M unit :=
  if bool_decide (key = "Enter") && negb shiftKey then sendTextMessage else ret tt.

(** *** Tool handlers *)

Definition set_memory (key value : string) : M tool_result :=
  setMemoryKv_with (object_assign_key key value) ;;
  ret (set_memory_result true).

Definition edit_email_marketing (subject body : string) : M tool_result :=
  setEmailContent {| subject := subject; body := body |} ;;
  ret (edit_email_result true "Email content updated successfully").

(** *** Handlers of the client's events *)

Definition on_realtime_event (realtimeEvent : RealtimeEvent) : M unit :=
  setRealtimeEvents_with (realtime_event_updater realtimeEvent).

Definition on_error (msg : string) : M unit := console_error msg.

Definition on_conversation_interrupted : M unit :=
  trackSampleOffset <- on_player PlayerInterrupt wsp_interrupt ;;
  match trackSampleOffset with
  | Some {| trackId := Some t; offset := o |} =>
      if truthy_string t
      then on_client (ClientCancelResponse t o) (rc_cancelResponse t o)
      else ret tt
  | _ => ret tt
  end.

Definition on_conversation_updated (item : loc) (delta : option Delta) : M unit :=
  its <- getItems ;;
  (match delta ≫= delta_audio with
   | Some chunk =>
       it <- deref item ;;
       on_player (PlayerAdd16BitPCM chunk (id it)) (wsp_add16BitPCM chunk (id it))
   | None => ret tt
   end) ;;
  it <- deref item ;;
  (match audio (formatted it) with
   | Some a =>
       if bool_decide (status it = "completed") && truthy_length a then
         wavFile <- decode a 24000 24000 ;;
         assign_file item wavFile
       else ret tt
   | None => ret tt
   end) ;;
  setItems its.

(** *** The effect run once when the page is mounted, and its cleanup *)

Definition mount : M unit :=
  on_client (ClientUpdateSession (upd_instructions instructions))
    (rc_updateSession (upd_instructions instructions)) ;;
  on_client (ClientUpdateSession (upd_input_audio_transcription "whisper-1"))
    (rc_updateSession (upd_input_audio_transcription "whisper-1")) ;;
  on_client (ClientAddTool "set_memory") (rc_addTool "set_memory") ;;
  on_client (ClientAddTool "edit_email_marketing") (rc_addTool "edit_email_marketing") ;;
  on_client (ClientOn "realtime.event") (rc_on "realtime.event") ;;
  on_client (ClientOn "error") (rc_on "error") ;;
  on_client (ClientOn "conversation.interrupted") (rc_on "conversation.interrupted") ;;
  on_client (ClientOn "conversation.updated") (rc_on "conversation.updated") ;;
  its <- getItems ;;
  setItems its.

Definition unmount : M unit := on_client ClientReset rc_reset.

(** *** Handlers written inline in the rendered elements *)

Definition edit_subject (v : string) : M unit :=
  setEmailContent_with (fun prev => {| subject := v; body := body prev |}).

Definition edit_body (v : string) : M unit :=
  setEmailContent_with (fun prev => {| subject := subject prev; body := v |}).

Definition close_chat : M unit := setIsChatOpen false.

Definition type_text (v : jsstring) : M unit := setTextMessage v.

(** ** Everything that can happen to the page *)

Inductive operation : Type :=
| OpMount
| OpUnmount
| OpConnect (now : string)
| OpChangeTurnEndType (value : string)
| OpToggleListening
| OpPushToTalk
| OpPushToTalkEnd
| OpRecordingTimer
| OpAudioChunk (mono : list Z)
| OpSendTextMessage
| OpKeyDown (key : string) (shiftKey : bool)
| OpTypeText (v : jsstring)
| OpEditSubject (v : string)
| OpEditBody (v : string)
| OpCloseChat
| OpDisconnect
| OpSetMemory (key value : string)
| OpEditEmailMarketing (subject body : string)
| OpRealtimeEvent (e : RealtimeEvent)
| OpError (msg : string)
| OpConversationInterrupted
| OpConversationUpdated (item : loc) (delta : option Delta).

Definition discard {A : Type} (m : M A) : M unit := _ <- m ;; ret tt.

Definition run (op : operation) : M unit :=
  match op with
  | OpMount => mount
  | OpUnmount => unmount
  | OpConnect now => connectConversation now
  | OpChangeTurnEndType value => changeTurnEndType value
  | OpToggleListening => toggleListening
  | OpPushToTalk => handlePushToTalk
  | OpPushToTalkEnd => handlePushToTalkEnd
  | OpRecordingTimer => on_recording_timer
  | OpAudioChunk mono => on_audio_chunk mono
  | OpSendTextMessage => sendTextMessage
  | OpKeyDown key shiftKey => handleKeyDown key shiftKey
  | OpTypeText v => type_text v
  | OpEditSubject v => edit_subject v
  | OpEditBody v => edit_body v
  | OpCloseChat => close_chat
  | OpDisconnect => disconnectConversation
  | OpSetMemory key value => discard (set_memory key value)
  | OpEditEmailMarketing subject body => discard (edit_email_marketing subject body)
  | OpRealtimeEvent e => on_realtime_event e
  | OpError msg => on_error msg
  | OpConversationInterrupted => on_conversation_interrupted
  | OpConversationUpdated item delta => on_conversation_updated item delta
  end.

End ConsolePage.

Arguments world : clear implicits.
Arguments M : clear implicits.

(** ** Running several operations *)

(** Operations are handled one at a time; a handler that throws leaves the
    page in the state it had reached. *)
Definition run_all {R P C : Type}
    `{!WavRecorder R, !WavStreamPlayer P, !RealtimeClient C}
    (ops : list operation) (w : world R P C) : world R P C :=
  fold_left (fun w op => snd (run op w)) ops w.

Definition is_connect_or_disconnect (op : operation) : bool :=
  match op with
  | OpConnect _ | OpDisconnect => true
  | _ => false
  end.

(** Whether an operation is one of those that write the memory store. *)
Definition writes_memory (op : operation) : bool :=
  match op with
  | OpSetMemory _ _ | OpDisconnect | OpConnect _ => true
  | _ => false
  end.

(** ** Observations of a trace *)

(** The number of [createResponse] calls. *)
Fixpoint create_requests (tr : list effect) : nat :=
  match tr with
  | [] => O
  | Call ClientCreateResponse _ :: tr' => S (create_requests tr')
  | _ :: tr' => create_requests tr'
  end.

(** The session updates sent to the client, in order. *)
Fixpoint session_updates (tr : list effect) : list session_update :=
  match tr with
  | [] => []
  | Call (ClientUpdateSession u) _ :: tr' => u :: session_updates tr'
  | _ :: tr' => session_updates tr'
  end.

(** The commands sent to the capture device, with their completion. *)
Fixpoint recorder_commands (tr : list effect) : list (command * bool) :=
  match tr with
  | [] => []
  | Call RecorderBegin b :: tr' => (RecorderBegin, b) :: recorder_commands tr'
  | Call RecorderRecord b :: tr' => (RecorderRecord, b) :: recorder_commands tr'
  | Call RecorderPause b :: tr' => (RecorderPause, b) :: recorder_commands tr'
  | Call RecorderEnd b :: tr' => (RecorderEnd, b) :: recorder_commands tr'
  | _ :: tr' => recorder_commands tr'
  end.

(** What a fresh connect does when no adapter command throws. *)
Definition connect_script (now : string) (canonical : list loc) : list effect :=
  [ SetStartTime now;
    SetIsConnected true;
    SetRealtimeEvents [];
    SetItems canonical;
    SetIsChatOpen true;
    Call RecorderBegin true;
    Call PlayerConnect true;
    Call ClientConnect true;
    Call (ClientSendUserMessageContent hello) true;
    Call (ClientUpdateSession (upd_turn_detection None)) true ].

(** A trace is a run of a script that was cut short when it is the script
    up to some command, with that command thrown. *)
Definition cut_short (script new : list effect) : Prop :=
  exists pre c post,
    script = pre ++ Call c true :: post /\ new = pre ++ [Call c false].

(** ** Simulated adapters *)

(** Modelled from the spec: the capture adapter ([WavRecorder] of
    lib/wavtools, whose code is not among the sources) with the surface
    begin / record / pause / end / getStatus of section 6; its state is the
    status string and every command completes. *)
Inductive sim_recorder : Type := SimRecorder (status : string).

#[export] Instance sim_recorder_adapter : WavRecorder sim_recorder := {
  rec_begin := fun _ => (Return tt, SimRecorder "paused");
  rec_record := fun _ => (Return tt, SimRecorder "recording");
  rec_pause := fun _ => (Return tt, SimRecorder "paused");
  rec_end := fun _ => (Return tt, SimRecorder "ended");
  rec_getStatus := fun r => match r with SimRecorder s => s end;
  rec_decode := fun a _ _ => Return (wav_handle (N.of_nat (length a)))
}.

(** Modelled from the spec: the playback adapter ([WavStreamPlayer] of
    lib/wavtools, whose code is not among the sources) with the surface
    connect / add16BitPCM / interrupt of section 6; its state is the value
    the next [interrupt()] resolves to. *)
Inductive sim_player : Type := SimPlayer (playing : option TrackSampleOffset).

#[export] Instance sim_player_adapter : WavStreamPlayer sim_player := {
  wsp_connect := fun p => (Return tt, p);
  wsp_add16BitPCM := fun chunk track _ =>
    (Return tt, SimPlayer (Some {| trackId := Some track; offset := 0 |}));
  wsp_interrupt := fun p => match p with SimPlayer o => (Return o, SimPlayer None) end
}.

(** Modelled from the spec: the remote session client ([RealtimeClient] of
    the realtime API package, whose code is not among the sources) with the
    surface of section 6; [connect()] rejects when the service cannot be
    reached, every other command completes. *)
Record sim_client : Type := SimClient {
  reachable : bool;
  connected : bool;
  conversation : list loc
}.

#[export] Instance sim_client_adapter : RealtimeClient sim_client := {
  rc_connect := fun c =>
    if reachable c
    then (Return tt, SimClient true true (conversation c))
    else (Throw (Rejected "connection refused"), c);
  rc_disconnect := fun c => (Return tt, SimClient (reachable c) false (conversation c));
  rc_reset := fun c => (Return tt, SimClient (reachable c) false []);
  rc_isConnected := connected;
  rc_updateSession := fun _ c => (Return tt, c);
  rc_addTool := fun _ c => (Return tt, c);
  rc_on := fun _ c => (Return tt, c);
  rc_sendUserMessageContent := fun _ c => (Return tt, c);
  rc_appendInputAudio := fun _ c => (Return tt, c);
  rc_createResponse := fun c => (Return tt, c);
  rc_cancelResponse := fun _ _ c => (Return tt, c);
  rc_getItems := conversation
}.

Definition sim_world : Type := world sim_recorder sim_player sim_client.

(** The world of a page that was just mounted, before any connect. *)
Definition fresh_world (can_reach : bool) : sim_world :=
  mkWorld (initial_page "2024-10-01T00:00:00.000Z") (SimRecorder "ended")
    (SimPlayer None) (SimClient can_reach false []) ∅ 1%positive [] [].

(** The world of a page connected in manual mode, nothing recorded yet. *)
Definition connected_world : sim_world :=
  mkWorld
    (with_isChatOpen true
       (with_isConnected true (initial_page "2024-10-01T00:00:02.000Z")))
    (SimRecorder "paused") (SimPlayer None) (SimClient true true []) ∅
    1%positive [] [].

(** The connected page while the assistant's audio of track t1 is playing. *)
Definition playing_world : sim_world :=
  mkWorld (ui connected_world) (SimRecorder "paused")
    (SimPlayer (Some {| trackId := Some "t1"; offset := 500 |}))
    (SimClient true true []) ∅ 1%positive [] [].

(** A realtime event as the client delivers it: no [count]. *)
Definition delivered (ty : string) : RealtimeEvent :=
  {| time := "2024-10-01T00:00:01.000Z"; source := server_source;
     count := None; event := {[ "type" := ty ]} |}.

(** Modelled from the spec: a capture adapter ([WavRecorder] of
    lib/wavtools, whose code is not among the sources) whose device is
    unavailable; every command, and [decode], is a rejected operation
    (section 7). *)
Inductive faulty_recorder : Type := FaultyRecorder.

#[export] Instance faulty_recorder_adapter : WavRecorder faulty_recorder := {
  rec_begin := fun r => (Throw (Rejected "device unavailable"), r);
  rec_record := fun r => (Throw (Rejected "device unavailable"), r);
  rec_pause := fun r => (Throw (Rejected "device unavailable"), r);
  rec_end := fun r => (Throw (Rejected "device unavailable"), r);
  rec_getStatus := fun _ => "ended";
  rec_decode := fun _ _ _ => Throw (Rejected "device unavailable")
}.

(** The connected page of [connected_world], with the faulty capture
    adapter. *)
Definition faulty_world : world faulty_recorder sim_player sim_client :=
  mkWorld (ui connected_world) FaultyRecorder (SimPlayer None)
    (SimClient true true []) ∅ 1%positive [] [].

(** The same while the push-to-talk button is held: recording, with the
    duration timer running. *)
Definition faulty_recording_world : world faulty_recorder sim_player sim_client :=
  mkWorld (with_recordingTimer (Some 1%positive) (with_isRecording true (ui connected_world)))
    FaultyRecorder (SimPlayer None) (SimClient true true []) ∅
    2%positive [1%positive] [].

(** ** The API key (first statements of [ConsolePage]) *)

(** The [localStorage] item the key is kept under. *)
Definition api_key_item : string := "tmp::voice_api_key".

(** Truthiness of a value that is a string or [null]. *)
Definition truthy_value (v : option string) : bool :=
  match v with
  | Some s => truthy_string s
  | None => false
  end.

(** What evaluating the first statements of [ConsolePage] yields: the key,
    whether [prompt] was called, and [localStorage] afterwards. *)
Record key_request : Type := mkKeyRequest {
  apiKey : string;
  prompted : bool;
  storage_after : gmap string string
}.

(** [LOCAL_RELAY_SERVER_URL ? '' : localStorage.getItem(..) || prompt(..) || '']
    followed by [if (apiKey !== '') localStorage.setItem(.., apiKey)].
    [prompt] is the user's reply, [null] when the dialog is cancelled; the
    dialog is shown only when the operands before it are falsy. *)
Definition ask_api_key (LOCAL_RELAY_SERVER_URL : string)
    (localStorage : gmap string string) (prompt : option string) : key_request :=
  let stored := localStorage !! api_key_item in
  let '(key, asked) :=
    if truthy_string LOCAL_RELAY_SERVER_URL then ("", false)
    else if truthy_value stored then (default "" stored, false)
    else if truthy_value prompt then (default "" prompt, true)
    else ("", true) in
  {| apiKey := key;
     prompted := asked;
     storage_after :=
       if bool_decide (key = "") then localStorage
       else <[api_key_item := key]> localStorage |}.

(** The options the [RealtimeClient] is constructed with. *)
Inductive client_options : Type :=
| relay_options (url : string)
| key_options (apiKey : string) (dangerouslyAllowAPIKeyInBrowser : bool).

Definition client_options_of (LOCAL_RELAY_SERVER_URL apiKey : string) : client_options :=
  if truthy_string LOCAL_RELAY_SERVER_URL
  then relay_options LOCAL_RELAY_SERVER_URL
  else key_options apiKey true.

(** ** The chat transcript (rendered elements of [ConsolePage]) *)

(** [a || b] on values that are a string or absent. *)
Definition js_or (a b : option string) : option string :=
  if truthy_value a then a else b.

Record chat_message : Type := mkChatMessage {
  message_key : string;
  message_class : string;
  message_text : string
}.

(** The element an item is mapped to: [null] for an item without
    transcript and text. The item objects of the page always have their
    [formatted] part, so [formatted?.x] is [formatted.x]. *)
Definition render_item (conversationItem : Item) : option chat_message :=
  let f := formatted conversationItem in
  if negb (truthy_value (transcript f)) && negb (truthy_value (text f)) then None
  else
    Some {| message_key := id conversationItem;
            message_class :=
              ("chat-message " ++ default "" (js_or (role conversationItem) (Some "")))%string;
            message_text :=
              default "" (js_or (js_or (transcript f) (text f)) (Some "(item sent)")) |}.

Record chat_body : Type := mkChatBody {
  welcome : bool;
  messages : list chat_message
}.

(** The children of the chat body: the welcome line when there is no
    item, and the elements of the items that have one. *)
Definition render_chat (items : list Item) : chat_body :=
  {| welcome := negb (truthy_length items);
     messages := omap render_item items |}.

(** ** Observations of the event log *)

(** No two neighbouring entries have the same type. *)
Fixpoint no_adjacent_duplicates (log : list RealtimeEvent) : bool :=
  match log with
  | e1 :: rest =>
      match rest with
      | e2 :: _ =>
          negb (bool_decide (event_type e1 = event_type e2))
          && no_adjacent_duplicates rest
      | [] => true
      end
  | [] => true
  end.

(** The number of events an entry stands for: itself and its repeats. *)
Definition occurrences (e : RealtimeEvent) : Z := 1 + default 0 (count e).

Definition events_accounted (log : list RealtimeEvent) : Z :=
  foldr (fun e n => occurrences e + n) 0 log.

(** ** Further scripts and classes of operations *)

(** What a disconnect does when no adapter command throws. *)
Definition disconnect_script : list effect :=
  [ SetIsConnected false;
    SetRealtimeEvents [];
    SetItems [];
    SetMemoryKv ∅;
    SetIsChatOpen false;
    Call ClientDisconnect true;
    Call RecorderEnd true;
    Call PlayerInterrupt true ].

(** What mounting the page does when no client command throws. *)
Definition mount_script (canonical : list loc) : list effect :=
  [ Call (ClientUpdateSession (upd_instructions instructions)) true;
    Call (ClientUpdateSession (upd_input_audio_transcription "whisper-1")) true;
    Call (ClientAddTool "set_memory") true;
    Call (ClientAddTool "edit_email_marketing") true;
    Call (ClientOn "realtime.event") true;
    Call (ClientOn "error") true;
    Call (ClientOn "conversation.interrupted") true;
    Call (ClientOn "conversation.updated") true;
    SetItems canonical ].

(** The operations that set the connected flag. *)
Definition sets_connected (op : operation) : bool :=
  match op with
  | OpConnect _ | OpDisconnect => true
  | _ => false
  end.

(** The operations that write the email draft. *)
Definition writes_email (op : operation) : bool :=
  match op with
  | OpEditEmailMarketing _ _ | OpEditSubject _ | OpEditBody _ => true
  | _ => false
  end.

(** The operations that command the capture device. *)
Definition commands_capture (op : operation) : bool :=
  match op with
  | OpConnect _ | OpDisconnect | OpChangeTurnEndType _ | OpToggleListening
  | OpPushToTalk | OpPushToTalkEnd => true
  | _ => false
  end.

(** A computation preserves the observation [g] of the world when [g] has
    the same value before and after it, however it completes. *)
Definition leaves {R P C : Type} {X A : Type} (g : world R P C -> X)
    (m : M R P C A) : Prop :=
  forall w, g (snd (m w)) = g w.

(** The capture device and the commands it has received so far. *)
Definition capture_view {R P C : Type} (w : world R P C) : R * list (command * bool) :=
  (recorder w, recorder_commands (trace w)).

(** ** Frame conditions *)

(** A computation preserves the observation [f] of the page when [f] has
    the same value before and after it, however it completes. *)
Definition preserves {R P C : Type} {X A : Type} (f : page -> X)
    (m : M R P C A) : Prop :=
  forall w, f (ui (snd (m w))) = f (ui w).

(** * Properties *)

(** ** The event log *)

Lemma set_count_set_count (c c' : option Z) (e : RealtimeEvent) :
  set_count c (set_count c' e) = set_count c e.
Proof. reflexivity. Qed.

Lemma event_type_set_count (c : option Z) (e : RealtimeEvent) :
  event_type (set_count c e) = event_type e.
Proof. reflexivity. Qed.

(** An event of another type than the last entry's is appended as it is. *)
Lemma updater_appends (e : RealtimeEvent) (log : list RealtimeEvent) :
  lastEvent_of log ≫= event_type ≠ event_type e ->
  realtime_event_updater e log = Return (log ++ [e]).
Proof.
  intros Hne. unfold realtime_event_updater.
  destruct (decide _) as [Heq|_]; [contradiction|reflexivity].
Qed.

(** An event of the last entry's type only increments that entry's count. *)
Lemma updater_coalesces (e le : RealtimeEvent) (pre : list RealtimeEvent) :
  event_type e = event_type le ->
  realtime_event_updater e (pre ++ [le]) =
    Return (pre ++ [set_count (Some (default 0 (count le) + 1)) le]).
Proof.
  intros Heq. unfold realtime_event_updater, lastEvent_of.
  rewrite last_snoc. simpl.
  destruct (decide _) as [_|Hne]; [|congruence].
  now rewrite removelast_last.
Qed.

(** A run of events of the type of the last entry [le]: the entry absorbs
    all of them. *)
Lemma deliver_run_on_entry (t : string) (es : list RealtimeEvent) :
  Forall (fun x => event_type x = Some t) es ->
  forall (pre : list RealtimeEvent) (le : RealtimeEvent),
    event_type le = Some t ->
    deliver_events es (pre ++ [le]) =
      Return (pre ++ [match es with
                      | [] => le
                      | _ => set_count (Some (default 0 (count le) + Z.of_nat (length es))) le
                      end]).
Proof.
  induction 1 as [|e es He Hes IH]; intros pre le Hle; [reflexivity|].
  cbn [deliver_events].
  rewrite updater_coalesces by congruence.
  rewrite IH by (rewrite event_type_set_count; exact Hle).
  do 3 f_equal.
  destruct es as [|e' es'].
  - reflexivity.
  - rewrite set_count_set_count. cbn [count set_count default].
    do 2 f_equal. unfold Datatypes.id. cbn [length]. lia.
Qed.

(** C1 (amended). A run of N >= 1 events of one type [t], delivered on a
    log whose last entry (if any) has another type, adds exactly one entry
    to the log: the first event of the run. Its count is the one it was
    delivered with when N = 1, and (that count, or 0 when it has none)
    + N - 1 when N >= 2; for events delivered without a count, as the client
    delivers them, that is no count for N = 1 and N - 1 for N >= 2.  An
    event whose type differs from the last entry's type is appended as a
    new entry. *)
Theorem realtime_events_coalesce
    (log : list RealtimeEvent) (e : RealtimeEvent) (es : list RealtimeEvent)
    (t : string) :
  event_type e = Some t ->
  Forall (fun x => event_type x = Some t) es ->
  lastEvent_of log ≫= event_type ≠ Some t ->
  (exists entry,
      deliver_events (e :: es) log = Return (log ++ [entry]) /\
      time entry = time e /\ source entry = source e /\ event entry = event e /\
      count entry =
        match es with
        | [] => count e
        | _ => Some (default 0 (count e) + (Z.of_nat (length (e :: es)) - 1))
        end /\
      (count e = None ->
       count entry =
         match es with
         | [] => None
         | _ => Some (Z.of_nat (length (e :: es)) - 1)
         end)) /\
  (forall (log' : list RealtimeEvent) (e' : RealtimeEvent),
      lastEvent_of log' ≫= event_type ≠ event_type e' ->
      realtime_event_updater e' log' = Return (log' ++ [e'])).
Proof.
  intros He Hes Hlast. split; [|exact (fun l x => updater_appends x l)].
  exists (match es with
          | [] => e
          | _ => set_count (Some (default 0 (count e) + Z.of_nat (length es))) e
          end).
  split.
  - cbn [deliver_events].
    rewrite updater_appends by (rewrite He; exact Hlast).
    exact (deliver_run_on_entry t es Hes log e He).
  - destruct es as [|e' es'].
    + repeat split; auto.
    + cbn [time source event count set_count].
      repeat split.
      * do 2 f_equal. cbn [length]. lia.
      * intros ->. cbn [default]. unfold Datatypes.id. f_equal. cbn [length]. lia.
Qed.

Lemma realtime_events_coalesce_witness :
  exists entry,
    deliver_events [delivered "response.audio.delta"; delivered "response.audio.delta";
                    delivered "response.audio.delta"]
      [delivered "response.created"] =
      Return ([delivered "response.created"] ++ [entry]) /\
    count entry = Some 2.
Proof.
  destruct (realtime_events_coalesce [delivered "response.created"]
              (delivered "response.audio.delta")
              [delivered "response.audio.delta"; delivered "response.audio.delta"]
              "response.audio.delta") as [[entry (Hd & _ & _ & _ & _ & Hc)] _].
  - reflexivity.
  - repeat constructor.
  - vm_compute. discriminate.
  - exists entry. split; [exact Hd|]. rewrite Hc; reflexivity.
Defined.

(** Two events of one type on an empty log: one entry, whose count is 1,
    not 2. *)
Lemma coalesced_count_is_not_run_length :
  deliver_events [delivered "response.audio.delta"; delivered "response.audio.delta"] [] =
    Return [set_count (Some 1) (delivered "response.audio.delta")] /\
  ~ (exists entry,
        deliver_events [delivered "response.audio.delta"; delivered "response.audio.delta"] [] =
          Return ([] ++ [entry]) /\
        count entry = Some (Z.of_nat (length [delivered "response.audio.delta";
                                              delivered "response.audio.delta"]))).
Proof.
  assert (H : deliver_events [delivered "response.audio.delta"; delivered "response.audio.delta"] [] =
              Return [set_count (Some 1) (delivered "response.audio.delta")])
    by (vm_compute; reflexivity).
  split; [exact H|].
  intros [entry [Hd Hc]]. rewrite H in Hd. cbn in Hd.
  injection Hd as <-. cbn in Hc. discriminate.
Qed.

(** ** Frame reasoning *)

Section Frame.

Context {R P C : Type}.
Context `{!WavRecorder R, !WavStreamPlayer P, !RealtimeClient C}.
Context {X : Type} (f : page -> X).

#[local] Abbreviation keeps := (preserves (R := R) (P := P) (C := C) f).

Lemma preserves_ret {A : Type} (a : A) : keeps (ret a).
Proof. intros w. reflexivity. Qed.

Lemma preserves_bind {A B : Type} (m : M R P C A) (k : A -> M R P C B) :
  keeps m -> (forall a, keeps (k a)) -> keeps (bind m k).
Proof.
  intros Hm Hk w. unfold bind. specialize (Hm w).
  destruct (m w) as [[a|e] w']; cbn [snd] in *.
  - rewrite Hk. exact Hm.
  - exact Hm.
Qed.

Lemma preserves_set_state (g : page -> page) (e : effect) :
  (forall p, f (g p) = f p) -> keeps (set_state g e).
Proof. intros Hg w. cbn. apply Hg. Qed.

Lemma preserves_render : keeps render.
Proof. intros w. reflexivity. Qed.

Lemma preserves_on_recorder (c : command) (g : R -> completion unit * R) :
  keeps (on_recorder c g).
Proof. intros w. unfold on_recorder. destruct (g (recorder w)). reflexivity. Qed.

Lemma preserves_on_player {A : Type} (c : command) (g : P -> completion A * P) :
  keeps (on_player c g).
Proof. intros w. unfold on_player. destruct (g (player w)). reflexivity. Qed.

Lemma preserves_on_client (c : command) (g : C -> completion unit * C) :
  keeps (on_client c g).
Proof. intros w. unfold on_client. destruct (g (client w)). reflexivity. Qed.

Lemma preserves_decode (a : list Z) (x y : Z) : keeps (decode a x y).
Proof. intros w. reflexivity. Qed.

Lemma preserves_getStatus : keeps getStatus.
Proof. intros w. reflexivity. Qed.

Lemma preserves_client_isConnected : keeps client_isConnected.
Proof. intros w. reflexivity. Qed.

Lemma preserves_getItems : keeps getItems.
Proof. intros w. reflexivity. Qed.

Lemma preserves_deref (l : loc) : keeps (deref l).
Proof. intros w. unfold deref. destruct (heap w !! l); reflexivity. Qed.

Lemma preserves_assign_file (l : loc) (x : WavFile) : keeps (assign_file l x).
Proof. intros w. reflexivity. Qed.

Lemma preserves_setInterval : keeps setInterval.
Proof. intros w. reflexivity. Qed.

Lemma preserves_clearInterval (t : positive) : keeps (clearInterval t).
Proof. intros w. reflexivity. Qed.

Lemma preserves_console_error (msg : string) : keeps (console_error msg).
Proof. intros w. reflexivity. Qed.

Lemma preserves_set_recordingTimer (t : positive) :
  (forall p v, f (with_recordingTimer v p) = f p) ->
  keeps (set_recordingTimer t).
Proof. intros Hg w. cbn. apply Hg. Qed.

Lemma preserves_setRealtimeEvents_with
    (g : list RealtimeEvent -> completion (list RealtimeEvent)) :
  (forall p v, f (with_realtimeEvents v p) = f p) ->
  keeps (setRealtimeEvents_with g).
Proof.
  intros Hg w. unfold setRealtimeEvents_with.
  destruct (g (realtimeEvents (ui w))); cbn; [apply Hg|reflexivity].
Qed.

Lemma preserves_setRecordingDuration_with (g : Z -> Z) :
  (forall p v, f (with_recordingDuration v p) = f p) ->
  keeps (setRecordingDuration_with g).
Proof. intros Hg w. cbn. apply Hg. Qed.

Lemma preserves_setEmailContent_with
    (g : EmailMarketingContent -> EmailMarketingContent) :
  (forall p v, f (with_emailContent v p) = f p) ->
  keeps (setEmailContent_with g).
Proof. intros Hg w. cbn. apply Hg. Qed.

Lemma preserves_setMemoryKv_with (g : gmap string string -> gmap string string) :
  (forall p v, f (with_memoryKv v p) = f p) ->
  keeps (setMemoryKv_with g).
Proof. intros Hg w. cbn. apply Hg. Qed.

End Frame.

Create HintDb frame.

#[global] Hint Resolve preserves_ret preserves_render preserves_on_recorder
  preserves_on_player preserves_on_client preserves_decode preserves_getStatus
  preserves_client_isConnected preserves_getItems preserves_deref
  preserves_assign_file preserves_setInterval preserves_clearInterval
  preserves_console_error : frame.

#[global] Hint Unfold setItems setRealtimeEvents setIsConnected setIsRecording
  setIsChatOpen setIsVADMode setTextMessage setRecordingDuration
  setIsListening set_startTimeRef stopPlayback stopRecording discard : frame.

(** Decomposes a frame goal along the structure of the handler. *)
Ltac frame :=
  autounfold with frame;
  repeat first
    [ apply preserves_bind; [|intros ?]
    | apply preserves_set_state; intros ?; reflexivity
    | apply preserves_set_recordingTimer; intros ? ?; reflexivity
    | apply preserves_setRealtimeEvents_with; intros ? ?; reflexivity
    | apply preserves_setRecordingDuration_with; intros ? ?; reflexivity
    | apply preserves_setEmailContent_with; intros ? ?; reflexivity
    | apply preserves_setMemoryKv_with; intros ? ?; reflexivity
    | solve [auto with frame]
    | match goal with
      | |- preserves _ (if ?b then _ else _) => destruct b
      | |- preserves _ (match ?x with _ => _ end) => destruct x
      end ].

(** ** Symbolic execution of handlers *)

(** Splits a world into its components, so that every projection of it
    reduces. *)
Ltac open_world w :=
  destruct w as [pg rec ply cli hp nt ats tr];
  cbn [ui recorder player client heap next_timer active_timers trace] in *.

(** Unfolds the monadic layer and the setters, leaving the adapter
    commands. *)
Ltac js_unfold :=
  cbv [bind ret set_state render on_recorder on_player on_client decode
       getStatus client_isConnected getItems deref assign_file setInterval
       clearInterval console_error setItems setRealtimeEvents setIsConnected
       setIsRecording setMemoryKv setEmailContent setIsChatOpen setIsVADMode
       setTextMessage setRecordingDuration setIsListening set_startTimeRef
       set_recordingTimer setMemoryKv_with setEmailContent_with
       setRecordingDuration_with setRealtimeEvents_with stopPlayback
       stopRecording log discard
       ui recorder player client heap next_timer active_timers trace
       fst snd is_return andb orb negb].

(** Decides a comparison of two strings that are known. *)
Ltac js_decide :=
  match goal with
  | |- context [bool_decide (?a = ?b)] =>
      first [ rewrite (bool_decide_eq_true_2 (a = b)) by reflexivity
            | rewrite (bool_decide_eq_false_2 (a = b)) by discriminate ]
  end.

(** Runs a handler as far as the adapters and the state allow. *)
Ltac js_run := js_unfold; repeat (js_decide; js_unfold).

Create HintDb handlers.

#[global] Hint Unfold mount unmount changeTurnEndType toggleListening
  handlePushToTalk handlePushToTalkEnd on_recording_timer on_audio_chunk
  sendTextMessage handleKeyDown type_text edit_subject edit_body close_chat
  edit_email_marketing on_realtime_event on_error on_conversation_interrupted
  on_conversation_updated setEmailContent setMemoryKv set_memory : handlers.

(** ** The memory store *)

Section MemoryStore.

Context {R P C : Type}.
Context `{!WavRecorder R, !WavStreamPlayer P, !RealtimeClient C}.

Lemma other_operations_keep_memory (op : operation) :
  writes_memory op = false -> preserves (R := R) (P := P) (C := C) memoryKv (run op).
Proof.
  destruct op; cbn [writes_memory run]; intros Hw; try discriminate;
    autounfold with handlers; frame.
Qed.

(** The page after a disconnect, however the adapters complete. *)
Lemma disconnect_page (w : world R P C) :
  ui (snd (disconnectConversation w)) =
    with_isChatOpen false
      (with_memoryKv ∅
         (with_items []
            (with_realtimeEvents [] (with_isConnected false (ui w))))).
Proof.
  open_world w. unfold disconnectConversation. js_unfold.
  destruct (rc_disconnect _) as [[[]|?] ?];
    [destruct (rec_end _) as [[[]|?] ?];
     [destruct (wsp_interrupt _) as [[?|?] ?]|]|];
    reflexivity.
Qed.

Lemma disconnect_clears_memory (w : world R P C) :
  memoryKv (ui (snd (disconnectConversation w))) = ∅.
Proof. now rewrite disconnect_page. Qed.

Lemma connect_when_connected (now : string) (w : world R P C) :
  isConnected (ui w) = true ->
  connectConversation now w = disconnectConversation w.
Proof.
  intros E. unfold connectConversation. unfold bind at 1. cbn [render].
  now rewrite E.
Qed.

Lemma fresh_connect_preserves {X : Type} (f : page -> X) (now : string)
    (w : world R P C) :
  (forall p v, f (with_startTimeRef v p) = f p) ->
  (forall p v, f (with_isConnected v p) = f p) ->
  (forall p v, f (with_realtimeEvents v p) = f p) ->
  (forall p v, f (with_items v p) = f p) ->
  (forall p v, f (with_isChatOpen v p) = f p) ->
  isConnected (ui w) = false ->
  f (ui (snd (connectConversation now w))) = f (ui w).
Proof.
  intros H1 H2 H3 H4 H5 E.
  unfold connectConversation. unfold bind at 1. cbn [render]. rewrite E.
  match goal with
  | |- f (ui (snd (?m w))) = _ =>
      assert (Hp : preserves f m); [|exact (Hp w)]
  end.
  autounfold with frame.
  repeat first
    [ apply preserves_bind; [|intros ?]
    | solve [auto with frame]
    | apply preserves_set_state; solve [auto] ].
Qed.

(** C2 (amended). Every operation other than the set_memory tool call,
    disconnect, and connect invoked while connected (which performs
    disconnect) leaves the memory store unchanged, however the operation
    completes. Disconnect, and connect while connected, reset the store to
    the empty mapping; connect while disconnected leaves it unchanged. A
    set_memory(key, value) call writes [value] under [key] on a copy of the
    store; for every key other than ["__proto__"] the store then maps
    exactly that key to the value and every other key as before. *)
Theorem memory_store_writers (op : operation) (w : world R P C) :
  (writes_memory op = false ->
   memoryKv (ui (snd (run op w))) = memoryKv (ui w)) /\
  (op = OpDisconnect -> memoryKv (ui (snd (run op w))) = ∅) /\
  (forall now, op = OpConnect now ->
     memoryKv (ui (snd (run op w))) =
       if isConnected (ui w) then ∅ else memoryKv (ui w)) /\
  (forall key value, op = OpSetMemory key value ->
     memoryKv (ui (snd (run op w))) =
       object_assign_key key value (memoryKv (ui w)) /\
     (key ≠ "__proto__" ->
      memoryKv (ui (snd (run op w))) !! key = Some value /\
      forall k, k ≠ key ->
        memoryKv (ui (snd (run op w))) !! k = memoryKv (ui w) !! k)).
Proof.
  repeat split.
  - intros Hw. exact (other_operations_keep_memory op Hw w).
  - intros ->. apply disconnect_clears_memory.
  - intros now ->. cbn [run].
    destruct (isConnected (ui w)) eqn:E.
    + rewrite connect_when_connected by exact E. apply disconnect_clears_memory.
    + now apply fresh_connect_preserves.
  - subst op. reflexivity.
  - subst op. cbn. unfold object_assign_key.
    destruct (decide (key = "__proto__")); [contradiction|].
    apply lookup_insert_eq.
  - subst op. intros k Hk. cbn. unfold object_assign_key.
    destruct (decide (key = "__proto__")); [contradiction|].
    now apply lookup_insert_ne.
Qed.

End MemoryStore.

Lemma memory_store_writers_witness :
  let w := snd (run (OpSetMemory "a" "1") (fresh_world true)) in
  memoryKv (ui (snd (run (OpSetMemory "a" "2") w))) !! "a" = Some "2" /\
  memoryKv (ui (snd (run OpPushToTalk w))) = memoryKv (ui w) /\
  memoryKv (ui (snd (run OpDisconnect w))) = ∅.
Proof.
  intros w.
  destruct (memory_store_writers (OpSetMemory "a" "2") w) as (_ & _ & _ & Hset).
  destruct (memory_store_writers OpPushToTalk w) as (Hkeep & _).
  destruct (memory_store_writers OpDisconnect w) as (_ & Hclear & _).
  split; [|split].
  - destruct (Hset "a" "2" eq_refl) as [_ Hk].
    apply Hk. discriminate.
  - apply Hkeep. reflexivity.
  - apply Hclear. reflexivity.
Defined.

(** Disconnect is not the set_memory tool handler, and it empties a store
    that held a value. *)
Lemma disconnect_writes_memory :
  let w := snd (run (OpSetMemory "a" "1") (fresh_world true)) in
  memoryKv (ui w) !! "a" = Some "1" /\
  memoryKv (ui (snd (run OpDisconnect w))) !! "a" = None /\
  memoryKv (ui (snd (run OpDisconnect w))) ≠ memoryKv (ui w).
Proof.
  assert (Hb : memoryKv (ui (snd (run (OpSetMemory "a" "1") (fresh_world true)))) !! "a"
               = Some "1") by (vm_compute; reflexivity).
  assert (Ha : memoryKv (ui (snd (run OpDisconnect
                 (snd (run (OpSetMemory "a" "1") (fresh_world true)))))) !! "a"
               = None) by (vm_compute; reflexivity).
  cbv zeta. split; [exact Hb|]. split; [exact Ha|].
  intros Heq. rewrite Heq in Ha. rewrite Hb in Ha. discriminate Ha.
Qed.

(** ** The email draft *)

Section EmailDraft.

Context {R P C : Type}.
Context `{!WavRecorder R, !WavStreamPlayer P, !RealtimeClient C}.

Lemma disconnect_keeps_email :
  preserves (R := R) (P := P) (C := C) emailContent disconnectConversation.
Proof. intros w. now rewrite disconnect_page. Qed.

Lemma connect_keeps_email (now : string) :
  preserves (R := R) (P := P) (C := C) emailContent (connectConversation now).
Proof.
  intros w. destruct (isConnected (ui w)) eqn:E.
  - rewrite connect_when_connected by exact E. apply disconnect_keeps_email.
  - now apply fresh_connect_preserves.
Qed.

Lemma cycle_keeps_email (ops : list operation) :
  forallb is_connect_or_disconnect ops = true ->
  forall w : world R P C,
    emailContent (ui (run_all ops w)) = emailContent (ui w).
Proof.
  induction ops as [|op ops IH]; intros Hops w; [reflexivity|].
  cbn [forallb] in Hops. apply andb_prop in Hops as [Hop Hops].
  change (run_all (op :: ops) w) with (run_all ops (snd (run op w))).
  rewrite IH by exact Hops.
  destruct op; try discriminate; cbn [run].
  - apply connect_keeps_email.
  - apply disconnect_keeps_email.
Qed.

(** C10. Disconnect leaves the email draft (subject and body) as it was,
    while it empties the conversation items, the event log and the memory
    store and resets the chat-open and connected flags, however the
    adapters complete; and so does every sequence of connects and
    disconnects, so the draft persists across disconnect/reconnect
    cycles. *)
Theorem email_draft_survives_disconnect (w : world R P C) :
  emailContent (ui (snd (disconnectConversation w))) = emailContent (ui w) /\
  items (ui (snd (disconnectConversation w))) = [] /\
  realtimeEvents (ui (snd (disconnectConversation w))) = [] /\
  memoryKv (ui (snd (disconnectConversation w))) = ∅ /\
  isChatOpen (ui (snd (disconnectConversation w))) = false /\
  isConnected (ui (snd (disconnectConversation w))) = false /\
  (forall now,
      emailContent (ui (snd (connectConversation now (snd (disconnectConversation w)))))
      = emailContent (ui w)) /\
  (forall ops,
      forallb is_connect_or_disconnect ops = true ->
      emailContent (ui (run_all ops w)) = emailContent (ui w)).
Proof.
  rewrite disconnect_page. repeat split.
  - intros now. rewrite connect_keeps_email. apply disconnect_keeps_email.
  - intros ops Hops. now apply cycle_keeps_email.
Qed.

End EmailDraft.

Lemma email_draft_survives_disconnect_witness :
  let w := snd (run (OpEditEmailMarketing "Autumn menu" "Join us on Friday")
                  (snd (run (OpConnect "2024-10-01T00:00:02.000Z") (fresh_world true)))) in
  emailContent (ui w) = {| subject := "Autumn menu"; body := "Join us on Friday" |} /\
  emailContent
    (ui (run_all [OpDisconnect; OpConnect "2024-10-01T00:00:03.000Z"; OpDisconnect] w))
  = emailContent (ui w).
Proof.
  intros w. split; [reflexivity|].
  destruct (email_draft_survives_disconnect w) as (_ & _ & _ & _ & _ & _ & _ & Hcycle).
  apply Hcycle. reflexivity.
Defined.

Lemma cut_short_at (n : nat) (script : list effect) (c : command) :
  script !! n = Some (Call c true) ->
  cut_short script (take n script ++ [Call c false]).
Proof.
  intros Hn. exists (take n script), c, (drop (S n) script).
  split; [|reflexivity]. symmetry. now apply take_drop_middle.
Qed.

(** ** Connecting *)

Section Connect.

Context {R P C : Type}.
Context `{!WavRecorder R, !WavStreamPlayer P, !RealtimeClient C}.

(** A fresh connect either runs the whole script, or stops at the first
    adapter command that throws. *)
Lemma fresh_connect_cases (now : string) (w : world R P C) :
  isConnected (ui w) = false ->
  let script := connect_script now (rc_getItems (client w)) in
  (fst (connectConversation now w) = Return tt /\
   trace (snd (connectConversation now w)) = trace w ++ script) \/
  (exists e new,
      fst (connectConversation now w) = Throw e /\
      cut_short script new /\
      trace (snd (connectConversation now w)) = trace w ++ new).
Proof.
  intros E script. subst script. open_world w.
  unfold connectConversation. js_unfold. rewrite E. cbv beta iota.
  destruct (rec_begin _) as [[[]|e] r1]; cbn;
    [|right; exists e; eexists; repeat split;
      [apply (cut_short_at 5 _ RecorderBegin); reflexivity
      |cbn; rewrite <- ?app_assoc; reflexivity]].
  destruct (wsp_connect _) as [[[]|e] p1]; cbn;
    [|right; exists e; eexists; repeat split;
      [apply (cut_short_at 6 _ PlayerConnect); reflexivity
      |cbn; rewrite <- ?app_assoc; reflexivity]].
  destruct (rc_connect _) as [[[]|e] c1]; cbn;
    [|right; exists e; eexists; repeat split;
      [apply (cut_short_at 7 _ ClientConnect); reflexivity
      |cbn; rewrite <- ?app_assoc; reflexivity]].
  destruct (rc_sendUserMessageContent hello c1) as [[[]|e] c2]; cbn;
    [|right; exists e; eexists; repeat split;
      [apply (cut_short_at 8 _ (ClientSendUserMessageContent hello)); reflexivity
      |cbn; rewrite <- ?app_assoc; reflexivity]].
  destruct (rc_updateSession (upd_turn_detection None) c2) as [[[]|e] c3]; cbn;
    [|right; exists e; eexists; repeat split;
      [apply (cut_short_at 9 _ (ClientUpdateSession (upd_turn_detection None))); reflexivity
      |cbn; rewrite <- ?app_assoc; reflexivity]].
  left. split; [reflexivity|]. rewrite <- ?app_assoc. reflexivity.
Qed.

(** The page after a fresh connect, however the adapters complete. *)
Lemma fresh_connect_page (now : string) (w : world R P C) :
  isConnected (ui w) = false ->
  ui (snd (connectConversation now w)) =
    with_isChatOpen true
      (with_items (rc_getItems (client w))
         (with_realtimeEvents []
            (with_isConnected true (with_startTimeRef now (ui w))))).
Proof.
  intros E. open_world w.
  unfold connectConversation. js_unfold. rewrite E. cbv beta iota.
  destruct (rec_begin _) as [[[]|?] r1]; cbn; [|reflexivity].
  destruct (wsp_connect _) as [[[]|?] p1]; cbn; [|reflexivity].
  destruct (rc_connect _) as [[[]|?] c1]; cbn; [|reflexivity].
  destruct (rc_sendUserMessageContent hello c1) as [[[]|?] c2]; cbn; [|reflexivity].
  destruct (rc_updateSession (upd_turn_detection None) c2) as [[[]|?] c3]; reflexivity.
Qed.

(** C7. Connect invoked while connected is disconnect. Invoked while
    disconnected it performs, in this order: record the session start
    timestamp, set the connected flag, clear the event log, load the
    client's conversation items (and open the chat), begin the capture
    device, connect the playback device, connect the remote client, send the
    greeting user message, set the session's turn detection to null. When
    it completes, its trace is exactly that script; when an adapter
    command throws, its trace is that script cut short at that command. *)
Theorem connect_toggles_or_runs_script (now : string) (w : world R P C) :
  (isConnected (ui w) = true ->
   connectConversation now w = disconnectConversation w) /\
  (isConnected (ui w) = false ->
   (fst (connectConversation now w) = Return tt ->
    trace (snd (connectConversation now w)) =
      trace w ++ connect_script now (rc_getItems (client w))) /\
   (exists new,
       trace (snd (connectConversation now w)) = trace w ++ new /\
       (new = connect_script now (rc_getItems (client w)) \/
        cut_short (connect_script now (rc_getItems (client w))) new)) /\
   ui (snd (connectConversation now w)) =
     with_isChatOpen true
       (with_items (rc_getItems (client w))
          (with_realtimeEvents []
             (with_isConnected true (with_startTimeRef now (ui w)))))).
Proof.
  split; [apply connect_when_connected|].
  intros E. split; [|split].
  - intros Hret.
    destruct (fresh_connect_cases now w E) as [[_ Ht]|(e & new & He & _)];
      [exact Ht|congruence].
  - destruct (fresh_connect_cases now w E) as [[_ Ht]|(e & new & _ & Hc & Ht)];
      eexists; split; eauto.
  - now apply fresh_connect_page.
Qed.

(** C3 (amended). If, during a fresh connect, the capture and playback
    devices start and the remote client's connect then fails, the connect
    handler rejects with that error, neither the greeting nor the session
    update is sent, and the connected flag set before the handshake stays
    true: it is not reverted. *)
Theorem failed_connect_stays_connected
    (now : string) (w : world R P C) (e : js_error) (c' : C) :
  isConnected (ui w) = false ->
  fst (rec_begin (recorder w)) = Return tt ->
  fst (wsp_connect (player w)) = Return tt ->
  rc_connect (client w) = (Throw e, c') ->
  fst (connectConversation now w) = Throw e /\
  isConnected (ui (snd (connectConversation now w))) = true /\
  trace (snd (connectConversation now w)) =
    trace w ++ [ SetStartTime now; SetIsConnected true; SetRealtimeEvents [];
                 SetItems (rc_getItems (client w)); SetIsChatOpen true;
                 Call RecorderBegin true; Call PlayerConnect true;
                 Call ClientConnect false ].
Proof.
  intros E Hb Hp Hc.
  split; [|split; [now rewrite fresh_connect_page|]];
    open_world w;
    unfold connectConversation; js_unfold; rewrite E; cbv beta iota;
    destruct (rec_begin _) as [[[]|?] r1]; try discriminate Hb;
    destruct (wsp_connect _) as [[[]|?] p1]; try discriminate Hp;
    rewrite Hc; cbn; [reflexivity|].
  rewrite <- ?app_assoc. reflexivity.
Qed.

End Connect.

Lemma connect_toggles_or_runs_script_witness :
  trace (snd (connectConversation "2024-10-01T00:00:02.000Z" (fresh_world true))) =
    connect_script "2024-10-01T00:00:02.000Z" [] /\
  connectConversation "2024-10-01T00:00:04.000Z"
    (snd (connectConversation "2024-10-01T00:00:02.000Z" (fresh_world true))) =
  disconnectConversation
    (snd (connectConversation "2024-10-01T00:00:02.000Z" (fresh_world true))).
Proof.
  split.
  - destruct (connect_toggles_or_runs_script "2024-10-01T00:00:02.000Z" (fresh_world true))
      as [_ Hfresh].
    destruct (Hfresh eq_refl) as (Hscript & _ & _).
    exact (Hscript eq_refl).
  - destruct (connect_toggles_or_runs_script "2024-10-01T00:00:04.000Z"
                (snd (connectConversation "2024-10-01T00:00:02.000Z" (fresh_world true))))
      as [Hconn _].
    apply Hconn. reflexivity.
Defined.

Lemma failed_connect_stays_connected_witness :
  fst (connectConversation "2024-10-01T00:00:02.000Z" (fresh_world false)) =
    Throw (Rejected "connection refused") /\
  isConnected (ui (snd (connectConversation "2024-10-01T00:00:02.000Z" (fresh_world false)))) =
    true.
Proof.
  destruct (failed_connect_stays_connected "2024-10-01T00:00:02.000Z" (fresh_world false)
              (Rejected "connection refused") (client (fresh_world false)))
    as (Hthrow & Hflag & _); try reflexivity.
  split; [exact Hthrow|exact Hflag].
Defined.

(** The remote connect fails, the handler rejects, and the page still
    shows the session as connected. *)
Lemma failed_connect_is_not_reverted :
  fst (rc_connect (client (fresh_world false))) = Throw (Rejected "connection refused") /\
  isConnected (ui (fresh_world false)) = false /\
  fst (connectConversation "2024-10-01T00:00:02.000Z" (fresh_world false)) =
    Throw (Rejected "connection refused") /\
  isConnected (ui (snd (connectConversation "2024-10-01T00:00:02.000Z" (fresh_world false))))
    <> false.
Proof.
  repeat split; try reflexivity.
  vm_compute. discriminate.
Qed.

(** ** Interruption *)

Section Interruption.

Context {R P C : Type}.
Context `{!WavRecorder R, !WavStreamPlayer P, !RealtimeClient C}.

(** C4. Handling conversation.interrupted invokes the playback device's
    interrupt() first. When interrupt() resolves to a result with a trackId
    (one that passes the handler's test: not null and not the empty
    string), cancelResponse is then called exactly once, with that trackId
    and the offset of that result, and nothing else is done. When
    interrupt() resolves to undefined, to a result whose trackId is null or
    empty, or rejects, cancelResponse is not called and nothing else is
    done. *)
Theorem interrupted_cancels_at_offset (w : world R P C) :
  exists rest,
    trace (snd (on_conversation_interrupted w)) =
      trace w ++ Call PlayerInterrupt (is_return (fst (wsp_interrupt (player w)))) :: rest /\
    (forall tso t,
        fst (wsp_interrupt (player w)) = Return (Some tso) ->
        trackId tso = Some t ->
        t <> "" ->
        exists ok, rest = [Call (ClientCancelResponse t (offset tso)) ok]) /\
    (fst (wsp_interrupt (player w)) = Return None \/
     (exists tso,
         fst (wsp_interrupt (player w)) = Return (Some tso) /\
         (trackId tso = None \/ trackId tso = Some "")) \/
     (exists e, fst (wsp_interrupt (player w)) = Throw e) ->
     rest = []).
Proof.
  open_world w. unfold on_conversation_interrupted. js_run.
  destruct (wsp_interrupt ply) as [[[[[t|] o]|]|e] p1]; js_run.
  - (* a result with a trackId *)
    destruct t as [|c t]; cbn [truthy_string]; js_run.
    + exists []. rewrite <- ?app_assoc. repeat split.
      intros tso t [= <-] [= <-] Ht. contradiction.
    + destruct (rc_cancelResponse (String c t) o cli) as [r c1]. js_run.
      eexists. rewrite <- ?app_assoc. split; [reflexivity|]. split.
      * intros tso t' [= <-] [= <-] _. eexists. reflexivity.
      * intros [[=]|[(tso & [= <-] & [[=]|[=]])|(e & [=])]].
  - (* a result whose trackId is null *)
    exists []. rewrite <- ?app_assoc. repeat split.
    intros tso t [= <-] [=].
  - (* undefined *)
    exists []. rewrite <- ?app_assoc. repeat split.
    intros tso t [=].
  - (* interrupt() rejects *)
    exists []. rewrite <- ?app_assoc. repeat split.
    intros tso t [=].
Qed.

End Interruption.

Lemma interrupted_cancels_at_offset_witness :
  (exists ok,
      trace (snd (on_conversation_interrupted playing_world)) =
        [Call PlayerInterrupt true; Call (ClientCancelResponse "t1" 500) ok]) /\
  trace (snd (on_conversation_interrupted connected_world)) =
    [Call PlayerInterrupt true].
Proof.
  split.
  - destruct (interrupted_cancels_at_offset playing_world) as (rest & Ht & Hcall & _).
    destruct (Hcall {| trackId := Some "t1"; offset := 500 |} "t1" eq_refl eq_refl)
      as [ok Hrest]; [discriminate|].
    exists ok. rewrite Ht, Hrest. reflexivity.
  - destruct (interrupted_cancels_at_offset connected_world) as (rest & Ht & _ & Hnone).
    rewrite Ht, Hnone; [reflexivity|]. left. reflexivity.
Defined.

(** ** Push to talk *)

Section PushToTalk.

Context {R P C : Type}.
Context `{!WavRecorder R, !WavStreamPlayer P, !RealtimeClient C}.

Lemma push_to_talk_end_idle (w : world R P C) :
  isRecording (ui w) = false -> handlePushToTalkEnd w = (Return tt, w).
Proof.
  intros E. unfold handlePushToTalkEnd, bind at 1, render. now rewrite E.
Qed.

(** C5. In connected manual mode, with no recording in progress, a
    push-to-talk begin that completes followed by a push-to-talk end that
    completes issues exactly one create-response request, and leaves the
    capture device in the state a completed pause() put it in (the only
    commands it received are record() and then pause()); the recording flag
    is false again. A push-to-talk end while no recording is in progress
    does nothing: no pause, no create-response, no state change. *)
Theorem push_to_talk_round_trip (w w1 w2 : world R P C) :
  (isConnected (ui w) = true ->
   isVADMode (ui w) = false ->
   isRecording (ui w) = false ->
   handlePushToTalk w = (Return tt, w1) ->
   handlePushToTalkEnd w1 = (Return tt, w2) ->
   exists new,
     trace w2 = trace w ++ new /\
     create_requests new = 1%nat /\
     recorder_commands new = [(RecorderRecord, true); (RecorderPause, true)] /\
     (exists r, rec_pause r = (Return tt, recorder w2)) /\
     isRecording (ui w2) = false /\
     new = [ Call PlayerInterrupt true; SetIsRecording true;
             SetRecordingDuration 0; Call RecorderRecord true;
             SetInterval (next_timer w); SetIsRecording false;
             Call RecorderPause true; Call ClientCreateResponse true;
             ClearInterval (next_timer w) ]) /\
  (isRecording (ui w) = false -> handlePushToTalkEnd w = (Return tt, w)).
Proof.
  split; [|apply push_to_talk_end_idle].
  intros Ec Ev Er Hb He. open_world w.
  unfold handlePushToTalk in Hb. revert Hb. js_unfold.
  rewrite Ec, Ev, Er. cbv beta iota delta [negb orb].
  destruct (wsp_interrupt _) as [[o|?] p1]; [|discriminate].
  destruct (rec_record _) as [[[]|?] r1]; [|discriminate].
  intros [= <-].
  unfold handlePushToTalkEnd in He. revert He. js_unfold.
  cbn [isRecording with_isRecording with_recordingDuration with_recordingTimer
       recordingTimer].
  destruct (rec_pause r1) as [[[]|?] r2] eqn:Hpause; [|discriminate].
  destruct (rc_createResponse _) as [[[]|?] c1]; [|discriminate].
  intros [= <-]. cbn.
  eexists. split; [rewrite <- ?app_assoc; reflexivity|].
  repeat split. exists r1. exact Hpause.
Qed.

End PushToTalk.

Lemma push_to_talk_round_trip_witness :
  exists w1 w2,
    handlePushToTalk connected_world = (Return tt, w1) /\
    handlePushToTalkEnd w1 = (Return tt, w2) /\
    (exists new,
        trace w2 = trace connected_world ++ new /\ create_requests new = 1%nat) /\
    rec_getStatus (recorder w2) = "paused".
Proof.
  exists (snd (handlePushToTalk connected_world)).
  exists (snd (handlePushToTalkEnd (snd (handlePushToTalk connected_world)))).
  assert (Hb : handlePushToTalk connected_world =
               (Return tt, snd (handlePushToTalk connected_world)))
    by (vm_compute; reflexivity).
  assert (He : handlePushToTalkEnd (snd (handlePushToTalk connected_world)) =
               (Return tt,
                snd (handlePushToTalkEnd (snd (handlePushToTalk connected_world)))))
    by (vm_compute; reflexivity).
  split; [exact Hb|]. split; [exact He|]. split.
  - destruct (push_to_talk_round_trip connected_world
                (snd (handlePushToTalk connected_world))
                (snd (handlePushToTalkEnd (snd (handlePushToTalk connected_world)))))
      as [Hround _].
    destruct (Hround eq_refl eq_refl eq_refl Hb He) as (new & Ht & Hc & _).
    exists new. split; [exact Ht|exact Hc].
  - vm_compute. reflexivity.
Defined.

(** ** Changing the turn mode *)

Section TurnMode.

Context {R P C : Type}.
Context `{!WavRecorder R, !WavStreamPlayer P, !RealtimeClient C}.

(** C6. (a) A change to manual while the capture device reports
    'recording' pauses the capture device first: the session update
    (turn_detection: null) is sent only after that pause has completed, and
    is not sent at all when the pause throws. (b) A change to
    voice-activity mode whose session update completes with the client
    connected sets the listening flag and starts recording at once. (c) A
    change to manual that completes leaves the listening flag and the
    voice-activity flag false and the capture device in the state a
    completed pause() put it in, pause() being the last command it
    received. *)
Theorem turn_mode_change (w : world R P C) :
  (rec_getStatus (recorder w) = "recording" ->
   (exists e,
       fst (changeTurnEndType "none" w) = Throw e /\
       trace (snd (changeTurnEndType "none" w)) = trace w ++ [Call RecorderPause false]) \/
   (exists ok rest,
       trace (snd (changeTurnEndType "none" w)) =
         trace w ++ Call RecorderPause true
                 :: Call (ClientUpdateSession (upd_turn_detection None)) ok :: rest /\
       session_updates rest = [])) /\
  (forall c1,
      rc_updateSession (turn_detection_of "server_vad") (client w) = (Return tt, c1) ->
      rc_isConnected c1 = true ->
      trace (snd (changeTurnEndType "server_vad" w)) =
        trace w ++ [ Call (ClientUpdateSession (upd_turn_detection (Some "server_vad"))) true;
                     SetIsVADMode true; SetIsListening true;
                     Call RecorderRecord (is_return (fst (rec_record (recorder w)))) ] /\
      isListening (ui (snd (changeTurnEndType "server_vad" w))) = true /\
      isVADMode (ui (snd (changeTurnEndType "server_vad" w))) = true /\
      recorder (snd (changeTurnEndType "server_vad" w)) = snd (rec_record (recorder w))) /\
  (forall w',
      changeTurnEndType "none" w = (Return tt, w') ->
      isListening (ui w') = false /\
      isVADMode (ui w') = false /\
      (exists r, rec_pause r = (Return tt, recorder w')) /\
      exists new,
        trace w' = trace w ++ new /\
        last (recorder_commands new) = Some (RecorderPause, true) /\
        session_updates new = [upd_turn_detection None]).
Proof.
  open_world w. split; [|split].
  - intros Hst. unfold changeTurnEndType. js_unfold. rewrite Hst. js_run.
    change (turn_detection_of "none") with (upd_turn_detection None).
    destruct (rec_pause rec) as [[[]|e] r1]; js_run;
      [|left; exists e; split; reflexivity].
    right.
    destruct (rc_updateSession (upd_turn_detection None) cli) as [[[]|e] c1]; js_run;
      [|exists false, []; rewrite <- ?app_assoc; split; reflexivity].
    exists true.
    destruct (rec_pause r1) as [[[]|e] r2]; js_run;
      eexists; rewrite <- ?app_assoc; split; reflexivity.
  - intros c1 Hupd Hconn. unfold changeTurnEndType. js_run.
    change (turn_detection_of "server_vad") with (upd_turn_detection (Some "server_vad")) in *.
    rewrite Hupd. js_run. rewrite Hconn. js_run.
    destruct (rec_record rec) as [[[]|e] r1]; js_run;
      rewrite <- ?app_assoc; repeat split; reflexivity.
  - intros w'. unfold changeTurnEndType. js_run.
    change (turn_detection_of "none") with (upd_turn_detection None).
    destruct (bool_decide (rec_getStatus rec = "recording")); js_run.
    + destruct (rec_pause rec) as [[[]|e] r1]; js_run; [|discriminate].
      destruct (rc_updateSession (upd_turn_detection None) cli) as [[[]|e] c1]; js_run;
        [|discriminate].
      destruct (rec_pause r1) as [[[]|e] r2] eqn:Hp; js_run; [|discriminate].
      intros [= <-]. cbn. repeat split; [now exists r1|].
      eexists. rewrite <- ?app_assoc. repeat split; reflexivity.
    + destruct (rc_updateSession (upd_turn_detection None) cli) as [[[]|e] c1]; js_run;
        [|discriminate].
      destruct (rec_pause rec) as [[[]|e] r2] eqn:Hp; js_run; [|discriminate].
      intros [= <-]. cbn. repeat split; [eexists; exact Hp|].
      eexists. rewrite <- ?app_assoc. repeat split; reflexivity.
Qed.

End TurnMode.

Lemma turn_mode_change_witness :
  let wv := snd (changeTurnEndType "server_vad" connected_world) in
  let wm := snd (changeTurnEndType "none" wv) in
  (isListening (ui wv) = true /\ rec_getStatus (recorder wv) = "recording") /\
  (exists ok rest,
      trace wm = trace wv ++ Call RecorderPause true
                 :: Call (ClientUpdateSession (upd_turn_detection None)) ok :: rest) /\
  (isListening (ui wm) = false /\ exists r, rec_pause r = (Return tt, recorder wm)).
Proof.
  intros wv wm.
  assert (Hst : rec_getStatus (recorder wv) = "recording") by (vm_compute; reflexivity).
  assert (Hrun : changeTurnEndType "none" wv = (Return tt, wm))
    by (vm_compute; reflexivity).
  destruct (turn_mode_change connected_world) as (_ & Hvad & _).
  destruct (turn_mode_change wv) as (Hfirst & _ & Hmanual).
  split; [|split].
  - destruct (Hvad (client connected_world) eq_refl eq_refl) as (_ & Hl & _).
    split; [exact Hl|exact Hst].
  - destruct (Hfirst Hst) as [(e & Hthrow & _)|(ok & rest & Ht & _)].
    + rewrite Hrun in Hthrow. discriminate Hthrow.
    + exists ok, rest. exact Ht.
  - destruct (Hmanual wm Hrun) as (Hl & _ & Hr & _).
    split; [exact Hl|exact Hr].
Defined.

(** ** Sending a text message *)

Section TextMessage.

Context {R P C : Type}.
Context `{!WavRecorder R, !WavStreamPlayer P, !RealtimeClient C}.

Lemma truthy_jsstring_nonempty (s : jsstring) :
  truthy_jsstring s = true <-> s <> [].
Proof. destruct s; cbn; split; congruence. Qed.

(** C9. sendTextMessage does nothing (no playback interrupt, no message,
    input buffer and everything else unchanged) unless the page is
    connected and the text is non-empty after trimming white space. When
    both hold it first interrupts playback, then sends the text, as typed,
    as a user message to the remote client, then clears the input buffer:
    that is its trace when it completes, and when a command throws the
    trace is that script cut short at that command. *)
Theorem send_text_message (w : world R P C) :
  (isConnected (ui w) = false \/ trim (textMessage (ui w)) = [] ->
   sendTextMessage w = (Return tt, w)) /\
  (isConnected (ui w) = true ->
   trim (textMessage (ui w)) <> [] ->
   let parts := [ {| part_type := "input_text"; part_text := textMessage (ui w) |} ] in
   let script := [ Call PlayerInterrupt true;
                   Call (ClientSendUserMessageContent parts) true;
                   SetTextMessage [] ] in
   (forall w',
       sendTextMessage w = (Return tt, w') ->
       trace w' = trace w ++ script /\ textMessage (ui w') = []) /\
   (exists new,
       trace (snd (sendTextMessage w)) = trace w ++ new /\
       (new = script \/ cut_short script new))).
Proof.
  split.
  - intros Hno. unfold sendTextMessage, bind at 1, render.
    destruct Hno as [Hc|Ht].
    + now rewrite Hc.
    + rewrite Ht. cbn. now rewrite orb_true_r.
  - intros Hc Ht parts script.
    apply truthy_jsstring_nonempty in Ht. open_world w.
    unfold sendTextMessage. js_unfold. rewrite Hc, Ht. js_run. fold parts.
    destruct (wsp_interrupt ply) as [[o|e] p1]; js_run.
    2:{ split; [discriminate|].
        eexists. split; [reflexivity|]. right.
        apply (cut_short_at 0 script PlayerInterrupt). reflexivity. }
    destruct (rc_sendUserMessageContent parts cli) as [[[]|e] c1]; js_run.
    2:{ split; [discriminate|].
        eexists. split; [rewrite <- ?app_assoc; reflexivity|]. right.
        apply (cut_short_at 1 script (ClientSendUserMessageContent parts)). reflexivity. }
    split.
    + intros w' [= <-]. cbn. rewrite <- ?app_assoc. split; reflexivity.
    + eexists. split; [rewrite <- ?app_assoc; reflexivity|]. now left.
Qed.

End TextMessage.

Lemma send_text_message_witness :
  let w := snd (type_text (utf16 " Write a subject line ") connected_world) in
  trace (snd (sendTextMessage w)) =
    trace w ++
      [ Call PlayerInterrupt true;
        Call (ClientSendUserMessageContent
                [ {| part_type := "input_text";
                     part_text := utf16 " Write a subject line " |} ]) true;
        SetTextMessage [] ] /\
  sendTextMessage (snd (type_text (utf16 "   ") w)) =
    (Return tt, snd (type_text (utf16 "   ") w)).
Proof.
  intros w.
  destruct (send_text_message w) as [_ Hsend].
  destruct (send_text_message (snd (type_text (utf16 "   ") w))) as [Hnoop _].
  split.
  - assert (Hc : isConnected (ui w) = true) by (vm_compute; reflexivity).
    assert (Ht : trim (textMessage (ui w)) <> []) by (vm_compute; discriminate).
    assert (Hrun : sendTextMessage w = (Return tt, snd (sendTextMessage w)))
      by (vm_compute; reflexivity).
    destruct (Hsend Hc Ht) as [Hdone _].
    destruct (Hdone (snd (sendTextMessage w)) Hrun) as [Htrace _].
    exact Htrace.
  - apply Hnoop. right. vm_compute. reflexivity.
Defined.

(** ** Conversation updates *)

Section ConversationUpdated.

Context {R P C : Type}.
Context `{!WavRecorder R, !WavStreamPlayer P, !RealtimeClient C}.

Lemma truthy_length_nonempty {A : Type} (l : list A) :
  truthy_length l = true <-> l <> [].
Proof. destruct l; cbn; split; congruence. Qed.

(** The cases of the decoding step, for a run that completes: the page,
    the trace and the store are then known, and the first two facts of the
    statement hold by computation. *)
Ltac decode_cases it :=
  destruct (audio (formatted it)) as [a|] eqn:Ha; js_run;
    [destruct (bool_decide (status it = "completed")) eqn:Hs; js_run;
     [destruct (truthy_length a) eqn:Hl; js_run;
      [destruct (rec_decode a 24000 24000) as [wavFile|e] eqn:Hw; js_run;
       [|discriminate]|]|]|];
  intros [= <-]; cbn [ui trace player heap items with_items];
  (split; [reflexivity|]); (split; [apply last_snoc|]);
  rewrite <- ?app_assoc; cbn [app].

(** The two facts about the item objects, in each of those cases. *)
Ltac item_facts Hit :=
  split;
  [ first
      [ solve [ intros a' _ [= <-] _;
                match goal with
                | Hw : rec_decode _ _ _ = Return ?f |- _ =>
                    exists f; split; [exact Hw|]
                end;
                split; [rewrite !in_app_iff; cbn; tauto|];
                split; [now rewrite lookup_alter_eq, Hit|];
                split; [intros l Hl'; now rewrite lookup_alter_ne|];
                intros Hin; split; [exact Hin|]; now rewrite lookup_alter_eq, Hit ]
      | solve [ intros a' _ [= <-] Hne; apply truthy_length_nonempty in Hne;
                congruence ]
      | solve [ intros a' Hst;
                match goal with
                | Hs : bool_decide _ = false |- _ =>
                    apply bool_decide_eq_false_1 in Hs; contradiction
                end ]
      | solve [ intros a' _ [=] ] ]
  | first
      [ reflexivity
      | match goal with
        | Hs : bool_decide _ = true, Hl : truthy_length _ = true |- _ =>
            apply bool_decide_eq_true_1 in Hs;
            apply truthy_length_nonempty in Hl;
            intros [?|[?|?]]; congruence
        end ] ].

(** C8. Handling a conversation.updated event that completes replaces the
    item list of the page by the client's full list of items (the last
    thing the handler does). If the event carries an audio delta, the chunk
    is first enqueued to the playback device under the item's id; without
    one the playback device is not touched. If the event's item has status
    'completed' and non-empty raw formatted audio, that audio is decoded
    with source rate 24000 and target rate 24000 and the artifact is
    attached to that item object, every other item object being left as it
    was, so a list that refers to the item shows it with the artifact;
    otherwise no item object changes. *)
Theorem conversation_updated
    (w w' : world R P C) (item : loc) (it : Item) (delta : option Delta) :
  heap w !! item = Some it ->
  on_conversation_updated item delta w = (Return tt, w') ->
  items (ui w') = rc_getItems (client w) /\
  last (trace w') = Some (SetItems (rc_getItems (client w))) /\
  (forall chunk,
      delta ≫= delta_audio = Some chunk ->
      exists rest,
        trace w' = trace w ++ Call (PlayerAdd16BitPCM chunk (id it)) true :: rest /\
        player w' = snd (wsp_add16BitPCM chunk (id it) (player w))) /\
  (delta ≫= delta_audio = None -> player w' = player w) /\
  (forall a,
      status it = "completed" ->
      audio (formatted it) = Some a ->
      a <> [] ->
      exists wavFile,
        rec_decode (R := R) a 24000 24000 = Return wavFile /\
        In (Call (RecorderDecode a 24000 24000) true) (trace w') /\
        heap w' !! item = Some (set_file wavFile it) /\
        (forall l, l <> item -> heap w' !! l = heap w !! l) /\
        (In item (rc_getItems (client w)) ->
         In item (items (ui w')) /\
         (heap w' !! item ≫= fun x => file (formatted x)) = Some wavFile)) /\
  (status it <> "completed" \/ audio (formatted it) = None \/ audio (formatted it) = Some [] ->
   heap w' = heap w).
Proof.
  intros Hit. open_world w. unfold on_conversation_updated. js_run.
  destruct (delta ≫= delta_audio) as [chunk|] eqn:Hd; js_run;
    rewrite Hit; js_run.
  - (* an audio delta *)
    destruct (wsp_add16BitPCM chunk (id it) ply) as [[[]|e] p1] eqn:Hadd; js_run;
      [|discriminate].
    rewrite Hit; js_run.
    decode_cases it;
      (split; [intros ? [= <-]; eexists; split; [reflexivity|now rewrite Hadd]|]);
      (split; [discriminate|]);
      item_facts Hit.
  - (* no audio delta *)
    decode_cases it;
      (split; [discriminate|]); (split; [reflexivity|]);
      item_facts Hit.
Qed.

End ConversationUpdated.

Lemma conversation_updated_witness :
  let it := {| id := "x"; role := Some "assistant"; status := "completed";
               formatted := {| audio := Some [1; 2; 3]; file := None;
                               transcript := None; text := None |} |} in
  let w := mkWorld (ui connected_world) (SimRecorder "paused")
             (SimPlayer None) (SimClient true true [1%positive])
             {[ 1%positive := it ]} 1%positive [] [] in
  let w' := snd (on_conversation_updated 1%positive
                   (Some {| delta_audio := Some [7; 8] |}) w) in
  items (ui w') = [1%positive] /\
  (heap w' !! 1%positive ≫= fun x => file (formatted x)) = Some (wav_handle 3) /\
  exists rest, trace w' = trace w ++ Call (PlayerAdd16BitPCM [7; 8] "x") true :: rest.
Proof.
  intros it w w'.
  assert (Hheap : heap w !! 1%positive = Some it) by (vm_compute; reflexivity).
  assert (Hrun : on_conversation_updated 1%positive
                   (Some {| delta_audio := Some [7; 8] |}) w = (Return tt, w'))
    by (vm_compute; reflexivity).
  destruct (conversation_updated w w' 1%positive it
              (Some {| delta_audio := Some [7; 8] |}) Hheap Hrun)
    as (Hitems & _ & Hchunk & _ & Hdecode & _).
  split; [exact Hitems|]. split.
  - destruct (Hdecode [1; 2; 3] eq_refl eq_refl) as (wavFile & Hw & _ & _ & _ & Hshown).
    + discriminate.
    + destruct Hshown as [_ Hfile]; [now left|].
      vm_compute in Hw. injection Hw as <-. exact Hfile.
  - destruct (Hchunk [7; 8] eq_refl) as (rest & Ht & _).
    exists rest. exact Ht.
Defined.

(** * Further properties *)

(** ** The event log: what coalescing keeps *)

Lemma no_adjacent_duplicates_snoc (l : list RealtimeEvent) (e : RealtimeEvent) :
  no_adjacent_duplicates (l ++ [e]) =
    no_adjacent_duplicates l &&
    match last l with
    | Some x => negb (bool_decide (event_type x = event_type e))
    | None => true
    end.
Proof.
  induction l as [|a l IH]; [reflexivity|].
  destruct l as [|b l].
  - cbn. now rewrite andb_true_r.
  - change (no_adjacent_duplicates ((a :: b :: l) ++ [e]))
      with (negb (bool_decide (event_type a = event_type b))
            && no_adjacent_duplicates ((b :: l) ++ [e])).
    rewrite IH.
    change (no_adjacent_duplicates (a :: b :: l))
      with (negb (bool_decide (event_type a = event_type b))
            && no_adjacent_duplicates (b :: l)).
    change (last (a :: b :: l)) with (last (b :: l)).
    now rewrite andb_assoc.
Qed.

Lemma events_accounted_snoc (l : list RealtimeEvent) (e : RealtimeEvent) :
  events_accounted (l ++ [e]) = events_accounted l + occurrences e.
Proof.
  unfold events_accounted. induction l as [|a l IH]; cbn; [lia|].
  rewrite IH. lia.
Qed.

(** The updater either appends the event or rewrites the last entry; it
    throws only where the source does. *)
Lemma updater_cases (e : RealtimeEvent) (log : list RealtimeEvent) :
  (log = [] /\ event_type e = None /\
   exists err, realtime_event_updater e log = Throw err) \/
  (lastEvent_of log ≫= event_type ≠ event_type e /\
   realtime_event_updater e log = Return (log ++ [e])) \/
  (exists pre le,
      log = pre ++ [le] /\ event_type le = event_type e /\
      realtime_event_updater e log =
        Return (pre ++ [set_count (Some (default 0 (count le) + 1)) le])).
Proof.
  destruct (decide (lastEvent_of log ≫= event_type = event_type e)) as [Heq|Hne].
  - destruct (last log) as [le|] eqn:Hl.
    + right. right. apply last_Some in Hl as [pre ->]. exists pre, le.
      unfold lastEvent_of in Heq. rewrite last_snoc in Heq. cbn in Heq.
      split; [reflexivity|]. split; [exact Heq|].
      now apply updater_coalesces.
    + left. apply last_None in Hl. subst log. cbn in Heq.
      split; [reflexivity|]. split; [now symmetry|].
      unfold realtime_event_updater. cbn.
      destruct (decide _); [eauto|contradiction].
  - right. left. split; [exact Hne|]. now apply updater_appends.
Qed.

(** X1. The log never holds two neighbouring entries of the same type: if
    it has none before a sequence of events is delivered, it has none
    after. *)
Theorem log_keeps_neighbours_distinct
    (evs log log' : list RealtimeEvent) :
  no_adjacent_duplicates log = true ->
  deliver_events evs log = Return log' ->
  no_adjacent_duplicates log' = true.
Proof.
  revert log. induction evs as [|e evs IH]; intros log Hinv Hrun.
  - cbn in Hrun. now injection Hrun as <-.
  - cbn [deliver_events] in Hrun.
    destruct (updater_cases e log)
      as [(_ & _ & err & Hu)|[(Hne & Hu)|(pre & le & -> & Hty & Hu)]];
      rewrite Hu in Hrun; [discriminate Hrun| |]; apply IH in Hrun; auto.
    + rewrite no_adjacent_duplicates_snoc, Hinv. cbn.
      unfold lastEvent_of in Hne. destruct (last log) as [x|]; [|reflexivity].
      cbn in Hne. now rewrite bool_decide_eq_false_2.
    + rewrite no_adjacent_duplicates_snoc in Hinv |- *.
      now rewrite event_type_set_count in *.
Qed.

Lemma log_keeps_neighbours_distinct_witness :
  exists log',
    deliver_events [delivered "a"; delivered "a"; delivered "b"; delivered "a"] [] =
      Return log' /\
    no_adjacent_duplicates log' = true.
Proof.
  eexists. split; [vm_compute; reflexivity|].
  apply (log_keeps_neighbours_distinct
           [delivered "a"; delivered "a"; delivered "b"; delivered "a"] []).
  - reflexivity.
  - vm_compute. reflexivity.
Defined.

(** X2. Coalescing loses no event: when events that carry no count of
    their own are delivered, the entries of the log, each standing for
    itself and its count of repeats, account for exactly that many more
    events. *)
Theorem log_accounts_for_every_event
    (evs log log' : list RealtimeEvent) :
  Forall (fun e => count e = None) evs ->
  deliver_events evs log = Return log' ->
  events_accounted log' = events_accounted log + Z.of_nat (length evs).
Proof.
  intros Hevs. revert log.
  induction Hevs as [|e evs He Hevs IH]; intros log Hrun.
  - cbn in Hrun. injection Hrun as <-. cbn. lia.
  - cbn [deliver_events] in Hrun.
    destruct (updater_cases e log)
      as [(_ & _ & err & Hu)|[(Hne & Hu)|(pre & le & -> & Hty & Hu)]];
      rewrite Hu in Hrun; [discriminate Hrun| |]; apply IH in Hrun; rewrite Hrun.
    + rewrite events_accounted_snoc. unfold occurrences. rewrite He.
      cbn [default length]. lia.
    + rewrite !events_accounted_snoc. unfold occurrences.
      cbn [count set_count default length]. unfold Datatypes.id. lia.
Qed.

Lemma log_accounts_for_every_event_witness :
  exists log',
    deliver_events [delivered "a"; delivered "a"; delivered "a"; delivered "b"] [] =
      Return log' /\
    length log' = 2%nat /\ events_accounted log' = 4.
Proof.
  eexists. split; [vm_compute; reflexivity|]. split; [reflexivity|].
  apply (log_accounts_for_every_event
           [delivered "a"; delivered "a"; delivered "a"; delivered "b"] []).
  - repeat constructor.
  - vm_compute. reflexivity.
Defined.

(** X3. Handling one event throws exactly when the log is empty and the
    event's payload has no type. So a sequence of events that all carry a
    type is always delivered, on any log, and the log then has at least as
    many entries as before and at most one more per event. *)
Theorem typed_events_are_always_delivered
    (evs log : list RealtimeEvent) :
  (forall e, (exists err, realtime_event_updater e log = Throw err) <->
             log = [] /\ event_type e = None) /\
  (Forall (fun e => event_type e <> None) evs ->
   exists log',
     deliver_events evs log = Return log' /\
     (length log <= length log' <= length log + length evs)%nat).
Proof.
  split.
  - intros e. split.
    + intros [err Hthrow].
      destruct (updater_cases e log)
        as [(Hl & Hty & _)|[(_ & Hu)|(pre & le & _ & _ & Hu)]]; [auto| |];
        rewrite Hu in Hthrow; discriminate Hthrow.
    + intros [-> Hty]. unfold realtime_event_updater. cbn. rewrite Hty.
      destruct (decide _); [eauto|contradiction].
  - intros Hevs. revert log.
    induction Hevs as [|e evs He Hevs IH]; intros log.
    + exists log. split; [reflexivity|]. cbn. lia.
    + cbn [deliver_events].
      destruct (updater_cases e log)
        as [(_ & Hty & _)|[(_ & Hu)|(pre & le & -> & _ & Hu)]];
        [contradiction| |]; rewrite Hu.
      * destruct (IH (log ++ [e])) as (log' & Hrun & Hlen).
        exists log'. split; [exact Hrun|].
        rewrite length_app in Hlen. cbn [length] in *. lia.
      * destruct (IH (pre ++ [set_count (Some (default 0 (count le) + 1)) le]))
          as (log' & Hrun & Hlen).
        exists log'. split; [exact Hrun|].
        rewrite !length_app in *. cbn [length] in *. lia.
Qed.

Lemma typed_events_are_always_delivered_witness :
  (exists err,
      realtime_event_updater
        {| time := "2024-10-01T00:00:01.000Z"; source := server_source;
           count := None; event := ∅ |} [] = Throw err) /\
  exists log',
    deliver_events [delivered "a"; delivered "b"] [delivered "a"] = Return log' /\
    (1 <= length log' <= 3)%nat.
Proof.
  destruct (typed_events_are_always_delivered [delivered "a"; delivered "b"] [delivered "a"])
    as [_ Hall].
  destruct (typed_events_are_always_delivered [] [])
    as [Hthrow _].
  split.
  - apply Hthrow. split; reflexivity.
  - apply Hall. repeat constructor; vm_compute; discriminate.
Defined.

(** ** The API key *)

Lemma truthy_string_nonempty (s : string) : truthy_string s = true <-> s <> "".
Proof. destruct s; cbn; split; congruence. Qed.

(** X4. With a relay server configured no key is used, nothing is asked
    and nothing is stored. Otherwise a non-empty key, stored or just typed,
    is kept in [localStorage], so that evaluating the statements again
    yields the same key without asking and leaves the storage as it is; and
    when no key is obtained the storage is not written. *)
Theorem api_key_is_remembered
    (relay : string) (storage : gmap string string) (prompt : option string) :
  (relay <> "" ->
   ask_api_key relay storage prompt =
     {| apiKey := ""; prompted := false; storage_after := storage |}) /\
  (apiKey (ask_api_key relay storage prompt) <> "" ->
   storage_after (ask_api_key relay storage prompt) !! api_key_item =
     Some (apiKey (ask_api_key relay storage prompt)) /\
   forall prompt',
     ask_api_key "" (storage_after (ask_api_key relay storage prompt)) prompt' =
       {| apiKey := apiKey (ask_api_key relay storage prompt);
          prompted := false;
          storage_after := storage_after (ask_api_key relay storage prompt) |}) /\
  (apiKey (ask_api_key relay storage prompt) = "" ->
   storage_after (ask_api_key relay storage prompt) = storage) /\
  (relay = "" ->
   forall key, storage !! api_key_item = Some key -> key <> "" ->
   apiKey (ask_api_key relay storage prompt) = key /\
   prompted (ask_api_key relay storage prompt) = false).
Proof.
  assert (Hagain : forall (m : gmap string string) key prompt',
             key <> "" ->
             ask_api_key "" (<[api_key_item := key]> m) prompt' =
               {| apiKey := key; prompted := false;
                  storage_after := <[api_key_item := key]> m |}).
  { intros m key prompt' Hkey. unfold ask_api_key. cbn [truthy_string].
    rewrite lookup_insert_eq. cbn [truthy_value default].
    apply truthy_string_nonempty in Hkey. rewrite Hkey. unfold Datatypes.id.
    apply truthy_string_nonempty in Hkey.
    rewrite bool_decide_eq_false_2 by exact Hkey.
    now rewrite insert_insert_eq. }
  unfold ask_api_key.
  destruct (truthy_string relay) eqn:Hrelay;
    [|destruct (storage !! api_key_item) as [stored|] eqn:Hst; cbn [truthy_value];
      [destruct (truthy_string stored) eqn:Hs|];
      try (destruct prompt as [reply|]; cbn [truthy_value];
           [destruct (truthy_string reply) eqn:Hr|])];
    cbn [default apiKey prompted storage_after]; unfold Datatypes.id;
    repeat match goal with
      | H : truthy_string _ = true |- _ => apply truthy_string_nonempty in H
      | H : truthy_string ?x = false |- _ =>
          assert (x = "") by (destruct x; [reflexivity|discriminate H]); clear H
      end;
    subst;
    repeat match goal with
      | H : ?k <> "" |- context [bool_decide (?k = "")] =>
          rewrite (bool_decide_eq_false_2 (k = "")) by exact H
      end;
    cbn [bool_decide decide_rel];
    (split; [|split; [|split]]);
    first
      [ reflexivity
      | solve [intros; congruence]
      | solve [intros _; split; [apply lookup_insert_eq|intros; now apply Hagain]]
      | solve [intros _ key [= <-] _; split; reflexivity]
      | solve [intros _ key [= <-] Hk; contradiction]
      | solve [intros _ key [=]] ].
Qed.

Lemma api_key_is_remembered_witness :
  ask_api_key "http://localhost:8081" ∅ None =
    {| apiKey := ""; prompted := false; storage_after := ∅ |} /\
  apiKey (ask_api_key "" ∅ (Some "sk-test")) = "sk-test" /\
  prompted (ask_api_key "" ∅ (Some "sk-test")) = true /\
  forall prompt',
    ask_api_key "" (storage_after (ask_api_key "" ∅ (Some "sk-test"))) prompt' =
      {| apiKey := "sk-test"; prompted := false;
         storage_after := storage_after (ask_api_key "" ∅ (Some "sk-test")) |}.
Proof.
  destruct (api_key_is_remembered "http://localhost:8081" ∅ None) as [Hrelay _].
  destruct (api_key_is_remembered "" ∅ (Some "sk-test")) as (_ & Hkept & _).
  split; [apply Hrelay; discriminate|].
  split; [vm_compute; reflexivity|]. split; [vm_compute; reflexivity|].
  assert (Hkey : apiKey (ask_api_key "" ∅ (Some "sk-test")) = "sk-test")
    by (vm_compute; reflexivity).
  rewrite Hkey in Hkept. apply Hkept. discriminate.
Defined.

(** ** The chat transcript *)

Lemma render_item_Some (it : Item) (m : chat_message) :
  render_item it = Some m ->
  message_key m = id it /\
  message_text m <> "" /\
  (transcript (formatted it) = Some (message_text m) \/
   (truthy_value (transcript (formatted it)) = false /\
    text (formatted it) = Some (message_text m))).
Proof.
  unfold render_item, js_or.
  destruct (transcript (formatted it)) as [tr|];
    destruct (text (formatted it)) as [tx|]; cbn [truthy_value];
    try destruct (truthy_string tr) eqn:Ht;
    try destruct (truthy_string tx) eqn:Hx;
    cbn [negb andb truthy_value]; rewrite ?Ht, ?Hx; try discriminate;
    intros [= <-]; cbn [message_key message_text default]; unfold Datatypes.id;
    rewrite ?truthy_string_nonempty in *; auto.
Qed.

Lemma render_item_None (it : Item) :
  truthy_value (transcript (formatted it)) = false ->
  truthy_value (text (formatted it)) = false ->
  render_item it = None.
Proof. intros Ht Hx. unfold render_item. now rewrite Ht, Hx. Qed.

Lemma length_omap_le {A B : Type} (f : A -> option B) (l : list A) :
  (length (omap f l) <= length l)%nat.
Proof.
  induction l as [|a l IH]; cbn; [lia|].
  destruct (f a); cbn; lia.
Qed.

(** X5. The welcome line is shown exactly when the page has no item. Every
    message shown comes from an item, is keyed by its id, is not empty, and
    shows the item's transcript, or its text when the transcript is absent
    or empty: the fallback text of the source is never what decides a
    message. Items with neither are skipped, so a page whose items all lack
    transcript and text shows no message (and, having items, no welcome
    line either). *)
Theorem chat_shows_items_with_content (items : list Item) :
  (welcome (render_chat items) = true <-> items = []) /\
  (forall m, m ∈ messages (render_chat items) ->
     exists it,
       it ∈ items /\ message_key m = id it /\ message_text m <> "" /\
       (transcript (formatted it) = Some (message_text m) \/
        (truthy_value (transcript (formatted it)) = false /\
         text (formatted it) = Some (message_text m)))) /\
  (length (messages (render_chat items)) <= length items)%nat /\
  (Forall (fun it => truthy_value (transcript (formatted it)) = false /\
                     truthy_value (text (formatted it)) = false) items ->
   messages (render_chat items) = []).
Proof.
  split; [|split; [|split]].
  - destruct items; cbn; split; congruence.
  - intros m Hm. cbn [messages render_chat] in Hm.
    apply list_elem_of_omap in Hm as (it & Hin & Hr).
    exists it. split; [exact Hin|]. now apply render_item_Some.
  - apply length_omap_le.
  - cbn [messages render_chat]. induction 1 as [|it l [Ht Hx] _ IH]; [reflexivity|].
    cbn [omap list_omap]. now rewrite (render_item_None it Ht Hx).
Qed.

Lemma chat_shows_items_with_content_witness :
  let spoken := {| id := "item_1"; role := Some "assistant"; status := "completed";
                   formatted := {| audio := None; file := None;
                                   transcript := Some "Hello there"; text := None |} |} in
  let pending := {| id := "item_2"; role := Some "user"; status := "in_progress";
                    formatted := {| audio := None; file := None;
                                    transcript := Some ""; text := None |} |} in
  messages (render_chat [pending]) = [] /\
  welcome (render_chat [pending]) = false /\
  forall m, m ∈ messages (render_chat [spoken; pending]) ->
            message_text m = "Hello there".
Proof.
  intros spoken pending.
  destruct (chat_shows_items_with_content [pending]) as (_ & _ & _ & Hnone).
  destruct (chat_shows_items_with_content [spoken; pending]) as (_ & Hshown & _).
  split; [apply Hnone; repeat constructor|]. split; [reflexivity|].
  intros m Hm. destruct (Hshown m Hm) as (it & Hin & _ & Hne & Hcontent).
  apply elem_of_cons in Hin as [->|Hin].
  - destruct Hcontent as [[= <-]|[[=] _]]. reflexivity.
  - apply list_elem_of_singleton in Hin as ->.
    destruct Hcontent as [[= Hc]|[_ [=]]]. now rewrite <- Hc in Hne.
Defined.

(** ** The tool handlers and the flags of the page *)

Section Writers.

Context {R P C : Type}.
Context `{!WavRecorder R, !WavStreamPlayer P, !RealtimeClient C}.

Lemma set_memory_store (key value : string) (w : world R P C) :
  memoryKv (ui (snd (set_memory key value w))) =
    object_assign_key key value (memoryKv (ui w)).
Proof. reflexivity. Qed.

Lemma object_assign_key_twice (key v1 v2 : string) (o : gmap string string) :
  object_assign_key key v2 (object_assign_key key v1 o) = object_assign_key key v2 o.
Proof.
  unfold object_assign_key. destruct (decide (key = "__proto__")); [reflexivity|].
  apply insert_insert_eq.
Qed.

Lemma object_assign_key_commute (k1 k2 v1 v2 : string) (o : gmap string string) :
  k1 <> k2 ->
  object_assign_key k2 v2 (object_assign_key k1 v1 o) =
    object_assign_key k1 v1 (object_assign_key k2 v2 o).
Proof.
  intros Hne. unfold object_assign_key.
  destruct (decide (k1 = "__proto__")), (decide (k2 = "__proto__")); try reflexivity.
  now apply insert_insert_ne.
Qed.

(** X6. A set_memory call always resolves to the acknowledgement
    {ok: true}. Calls compose as writes to a map: a second call with the
    same key overwrites the first, calls with different keys commute, and
    a call that stores what is already stored changes nothing. *)
Theorem set_memory_last_writer_wins (key v1 v2 : string) (w : world R P C) :
  fst (set_memory key v1 w) = Return (set_memory_result true) /\
  memoryKv (ui (snd (set_memory key v2 (snd (set_memory key v1 w))))) =
    memoryKv (ui (snd (set_memory key v2 w))) /\
  (forall key',
      key <> key' ->
      memoryKv (ui (snd (set_memory key' v2 (snd (set_memory key v1 w))))) =
        memoryKv (ui (snd (set_memory key v1 (snd (set_memory key' v2 w)))))) /\
  (memoryKv (ui w) !! key = Some v1 ->
   memoryKv (ui (snd (set_memory key v1 w))) = memoryKv (ui w)).
Proof.
  split; [reflexivity|]. rewrite !set_memory_store.
  split; [apply object_assign_key_twice|]. split.
  - intros key' Hne. rewrite !set_memory_store. now apply object_assign_key_commute.
  - intros Hold. unfold object_assign_key.
    destruct (decide (key = "__proto__")); [reflexivity|]. now apply insert_id.
Qed.

(** X7. The email draft is written by the edit_email_marketing tool call
    and by the two text areas only: every other operation leaves it as it
    was, however the operation completes. The tool call replaces subject
    and body together; an edit of one text area replaces that field and
    keeps the other, so the two edits commute and together amount to the
    tool call. *)
Theorem email_draft_writers (op : operation) (w : world R P C) :
  (writes_email op = false ->
   emailContent (ui (snd (run op w))) = emailContent (ui w)) /\
  (forall s b,
      op = OpEditEmailMarketing s b ->
      emailContent (ui (snd (run op w))) = {| subject := s; body := b |}) /\
  (forall v,
      op = OpEditSubject v ->
      emailContent (ui (snd (run op w))) =
        {| subject := v; body := body (emailContent (ui w)) |}) /\
  (forall v,
      op = OpEditBody v ->
      emailContent (ui (snd (run op w))) =
        {| subject := subject (emailContent (ui w)); body := v |}) /\
  (forall s b,
      emailContent (ui (run_all [OpEditSubject s; OpEditBody b] w)) =
        {| subject := s; body := b |} /\
      emailContent (ui (run_all [OpEditBody b; OpEditSubject s] w)) =
        {| subject := s; body := b |}).
Proof.
  split; [|repeat split; intros; subst; reflexivity].
  destruct op; cbn [writes_email run]; intros Hw; try discriminate;
    lazymatch goal with
    | |- emailContent (ui (snd (connectConversation _ w))) = _ =>
        apply connect_keeps_email
    | |- emailContent (ui (snd (disconnectConversation w))) = _ =>
        apply disconnect_keeps_email
    | |- emailContent (ui (snd (?m w))) = _ =>
        assert (Hp : preserves emailContent m);
        [autounfold with handlers; frame|exact (Hp w)]
    end.
Qed.

(** X8. The connected flag is set by connect and disconnect only: every
    other operation, an error event of the client included, leaves it as
    it was, however the operation completes. Connect always flips the
    flag, whatever the adapters do, and disconnect always clears it. *)
Theorem connected_flag_writers (op : operation) (w : world R P C) :
  (sets_connected op = false ->
   isConnected (ui (snd (run op w))) = isConnected (ui w)) /\
  (forall now,
      isConnected (ui (snd (connectConversation now w))) = negb (isConnected (ui w))) /\
  isConnected (ui (snd (disconnectConversation w))) = false.
Proof.
  split; [|split].
  - destruct op; cbn [sets_connected run]; intros Hw; try discriminate;
      match goal with
      | |- isConnected (ui (snd (?m w))) = _ =>
          assert (Hp : preserves isConnected m);
          [autounfold with handlers; frame|exact (Hp w)]
      end.
  - intros now. destruct (isConnected (ui w)) eqn:E.
    + rewrite connect_when_connected by exact E. now rewrite disconnect_page.
    + now rewrite fresh_connect_page.
  - now rewrite disconnect_page.
Qed.

End Writers.

Lemma set_memory_last_writer_wins_witness :
  memoryKv (ui (snd (set_memory "a" "2" (snd (set_memory "a" "1" connected_world)))))
    !! "a" = Some "2" /\
  memoryKv (ui (snd (set_memory "a" "2" (snd (set_memory "a" "2" connected_world))))) =
  memoryKv (ui (snd (set_memory "a" "2" connected_world))).
Proof.
  destruct (set_memory_last_writer_wins "a" "1" "2" connected_world) as (_ & Hover & _).
  destruct (set_memory_last_writer_wins "a" "2" "2"
              (snd (set_memory "a" "2" connected_world))) as (_ & _ & _ & Hsame).
  split.
  - rewrite Hover. vm_compute. reflexivity.
  - apply Hsame. vm_compute. reflexivity.
Defined.

Lemma email_draft_writers_witness :
  emailContent
    (ui (snd (run (OpError "socket closed")
                (snd (run (OpEditEmailMarketing "Autumn menu" "Join us") connected_world)))))
  = {| subject := "Autumn menu"; body := "Join us" |}.
Proof.
  destruct (email_draft_writers (OpError "socket closed")
              (snd (run (OpEditEmailMarketing "Autumn menu" "Join us") connected_world)))
    as (Hkeep & _).
  rewrite Hkeep by reflexivity.
  destruct (email_draft_writers (OpEditEmailMarketing "Autumn menu" "Join us")
              connected_world) as (_ & Htool & _).
  now apply Htool.
Defined.

Lemma connected_flag_writers_witness :
  isConnected (ui (snd (run (OpError "socket closed") connected_world))) = true /\
  isConnected (ui (snd (connectConversation "2024-10-01T00:00:05.000Z"
                          (fresh_world false)))) = true.
Proof.
  destruct (connected_flag_writers (OpError "socket closed") connected_world)
    as (Hkeep & _).
  destruct (connected_flag_writers OpDisconnect (fresh_world false)) as (_ & Hflip & _).
  split.
  - rewrite Hkeep by reflexivity. reflexivity.
  - rewrite Hflip. reflexivity.
Defined.

(** ** Disconnecting *)

Section Disconnect.

Context {R P C : Type}.
Context `{!WavRecorder R, !WavStreamPlayer P, !RealtimeClient C}.

(** X9. Disconnect first resets the page, then disconnects the client,
    then ends the capture device, then interrupts playback: when it
    completes its trace is that script, and when a command throws the
    trace is the script cut short there. In particular the capture device
    is ended only if the client's disconnect did not throw. Disconnecting
    twice leaves the page as disconnecting once does. *)
Theorem disconnect_tears_down_in_order (w : world R P C) :
  (exists new,
      trace (snd (disconnectConversation w)) = trace w ++ new /\
      (new = disconnect_script \/ cut_short disconnect_script new)) /\
  (fst (disconnectConversation w) = Return tt ->
   trace (snd (disconnectConversation w)) = trace w ++ disconnect_script) /\
  recorder (snd (disconnectConversation w)) =
    (if is_return (fst (rc_disconnect (client w)))
     then snd (rec_end (recorder w)) else recorder w) /\
  ui (snd (disconnectConversation (snd (disconnectConversation w)))) =
    ui (snd (disconnectConversation w)).
Proof.
  split; [|split; [|split]]; [| | |now rewrite !disconnect_page];
    open_world w; unfold disconnectConversation; js_run.
  - destruct (rc_disconnect cli) as [[[]|e1] c1]; js_run;
      [|eexists; split; [rewrite <- ?app_assoc; reflexivity|]; right;
        apply (cut_short_at 5 disconnect_script ClientDisconnect); reflexivity].
    destruct (rec_end rec) as [[[]|e2] r1]; js_run;
      [|eexists; split; [rewrite <- ?app_assoc; reflexivity|]; right;
        apply (cut_short_at 6 disconnect_script RecorderEnd); reflexivity].
    destruct (wsp_interrupt ply) as [[o|e3] p1]; js_run;
      eexists; (split; [rewrite <- ?app_assoc; reflexivity|]); [now left|].
    right. apply (cut_short_at 7 disconnect_script PlayerInterrupt). reflexivity.
  - destruct (rc_disconnect cli) as [[[]|e1] c1]; js_run; [|discriminate].
    destruct (rec_end rec) as [[[]|e2] r1]; js_run; [|discriminate].
    destruct (wsp_interrupt ply) as [[o|e3] p1]; js_run; [|discriminate].
    intros _. rewrite <- ?app_assoc. reflexivity.
  - destruct (rc_disconnect cli) as [[[]|e1] c1]; js_run; [|reflexivity].
    destruct (rec_end rec) as [[[]|e2] r1]; js_run; [|reflexivity].
    destruct (wsp_interrupt ply) as [[o|e3] p1]; reflexivity.
Qed.

End Disconnect.

Lemma disconnect_tears_down_in_order_witness :
  trace (snd (disconnectConversation connected_world)) = disconnect_script /\
  exists new,
    trace (snd (disconnectConversation faulty_world)) = new /\
    cut_short disconnect_script new.
Proof.
  destruct (disconnect_tears_down_in_order connected_world) as (_ & Hdone & _).
  split.
  - apply Hdone. vm_compute. reflexivity.
  - eexists. split; [vm_compute; reflexivity|].
    apply (cut_short_at 6 disconnect_script RecorderEnd). reflexivity.
Defined.

(** ** Listening and push to talk: guards and failures *)

Section Capture.

Context {R P C : Type}.
Context `{!WavRecorder R, !WavStreamPlayer P, !RealtimeClient C}.

(** X10. toggleListening sets the listening flag to its opposite before it
    commands the capture device, so the flag flips even when that command
    throws. Turning listening on only starts recording and requests no
    response; turning it off pauses the capture device and then, only if
    the pause completed, requests a response. An on/off round trip that
    completes issues exactly one create-response request. *)
Theorem toggle_listening_round_trip (w : world R P C) :
  isListening (ui (snd (toggleListening w))) = negb (isListening (ui w)) /\
  (isListening (ui w) = false ->
   trace (snd (toggleListening w)) =
     trace w ++ [ SetIsListening true;
                  Call RecorderRecord (is_return (fst (rec_record (recorder w)))) ]) /\
  (isListening (ui w) = true ->
   trace (snd (toggleListening w)) = trace w ++ [SetIsListening false; Call RecorderPause false] \/
   exists ok,
     trace (snd (toggleListening w)) =
       trace w ++ [SetIsListening false; Call RecorderPause true;
                   Call ClientCreateResponse ok]) /\
  (forall w1 w2,
      isListening (ui w) = false ->
      toggleListening w = (Return tt, w1) ->
      toggleListening w1 = (Return tt, w2) ->
      isListening (ui w2) = false /\
      exists new,
        trace w2 = trace w ++ new /\
        create_requests new = 1%nat /\
        recorder_commands new = [(RecorderRecord, true); (RecorderPause, true)]).
Proof.
  open_world w. split; [|split; [|split]].
  - unfold toggleListening. js_run. destruct (isListening pg); js_run.
    + destruct (rec_pause rec) as [[[]|e] r1]; js_run; [|reflexivity].
      destruct (rc_createResponse cli) as [[[]|e] c1]; reflexivity.
    + destruct (rec_record rec) as [[[]|e] r1]; reflexivity.
  - intros E. unfold toggleListening. js_run. rewrite E. js_run.
    destruct (rec_record rec) as [[[]|e] r1]; js_run;
      rewrite <- ?app_assoc; reflexivity.
  - intros E. unfold toggleListening. js_run. rewrite E. js_run.
    destruct (rec_pause rec) as [[[]|e] r1]; js_run;
      [|left; rewrite <- ?app_assoc; reflexivity].
    right. destruct (rc_createResponse cli) as [[[]|e] c1]; js_run;
      eexists; rewrite <- ?app_assoc; reflexivity.
  - intros w1 w2 E. unfold toggleListening. js_run. rewrite E. js_run.
    destruct (rec_record rec) as [[[]|e] r1]; js_run; [|discriminate].
    intros [= <-]. js_run. cbn [isListening with_isListening]. js_run.
    destruct (rec_pause r1) as [[[]|e] r2]; js_run; [|discriminate].
    destruct (rc_createResponse cli) as [[[]|e] c1]; js_run; [|discriminate].
    intros [= <-]. cbn [ui isListening with_isListening trace].
    split; [reflexivity|]. eexists.
    split; [rewrite <- ?app_assoc; reflexivity|]. split; reflexivity.
Qed.

(** X11. Push-to-talk begin is gated: while the page is disconnected, in
    voice-activity mode, or already recording, it does nothing at all. A
    begin that completes from the idle state leaves the page recording
    with the duration reset to zero and one more timer running, and a
    second begin on that state does nothing. *)
Theorem push_to_talk_is_gated (w : world R P C) :
  (isConnected (ui w) = false \/ isVADMode (ui w) = true \/ isRecording (ui w) = true ->
   handlePushToTalk w = (Return tt, w)) /\
  (forall w1,
      isConnected (ui w) = true ->
      isVADMode (ui w) = false ->
      isRecording (ui w) = false ->
      handlePushToTalk w = (Return tt, w1) ->
      isRecording (ui w1) = true /\
      recordingDuration (ui w1) = 0 /\
      recordingTimer (ui w1) = Some (next_timer w) /\
      active_timers w1 = next_timer w :: active_timers w /\
      handlePushToTalk w1 = (Return tt, w1)).
Proof.
  split.
  - intros Hgate. unfold handlePushToTalk, bind at 1, render.
    destruct (isConnected (ui w)), (isVADMode (ui w)), (isRecording (ui w));
      try reflexivity.
    destruct Hgate as [?|[?|?]]; discriminate.
  - intros w1 Ec Ev Er. open_world w. unfold handlePushToTalk. js_run.
    rewrite Ec, Ev, Er. js_run.
    destruct (wsp_interrupt ply) as [[o|e] p1]; js_run; [|discriminate].
    destruct (rec_record rec) as [[[]|e] r1]; js_run; [|discriminate].
    intros [= <-].
    cbn [ui next_timer active_timers isRecording recordingDuration recordingTimer
         isConnected isVADMode with_isRecording with_recordingDuration
         with_recordingTimer].
    rewrite Ec, Ev. repeat split.
Qed.

(** X12. If the capture device's pause() rejects when push-to-talk ends,
    the handler rejects after it has cleared the recording flag: no
    response is requested, the duration timer is not cleared and keeps
    running, and since the page no longer counts as recording, ending
    push-to-talk again does nothing. *)
Theorem failed_pause_leaves_timer_running
    (w : world R P C) (e : js_error) (r' : R) :
  isRecording (ui w) = true ->
  rec_pause (recorder w) = (Throw e, r') ->
  fst (handlePushToTalkEnd w) = Throw e /\
  trace (snd (handlePushToTalkEnd w)) =
    trace w ++ [SetIsRecording false; Call RecorderPause false] /\
  isRecording (ui (snd (handlePushToTalkEnd w))) = false /\
  recordingTimer (ui (snd (handlePushToTalkEnd w))) = recordingTimer (ui w) /\
  active_timers (snd (handlePushToTalkEnd w)) = active_timers w /\
  handlePushToTalkEnd (snd (handlePushToTalkEnd w)) =
    (Return tt, snd (handlePushToTalkEnd w)).
Proof.
  intros Er Hp. open_world w. unfold handlePushToTalkEnd. js_run.
  rewrite Er. js_run. rewrite Hp. js_run.
  cbn [isRecording with_isRecording recordingTimer]. js_run.
  rewrite <- ?app_assoc. repeat split.
Qed.

(** X13. If the capture device's record() rejects when push-to-talk
    begins, the handler rejects after it has set the recording flag: the
    page shows recording, with the duration at zero, although nothing is
    recorded, and no duration timer is started. *)
Theorem failed_record_shows_recording
    (w : world R P C) (e : js_error) (r' : R) :
  isConnected (ui w) = true ->
  isVADMode (ui w) = false ->
  isRecording (ui w) = false ->
  is_return (fst (wsp_interrupt (player w))) = true ->
  rec_record (recorder w) = (Throw e, r') ->
  fst (handlePushToTalk w) = Throw e /\
  trace (snd (handlePushToTalk w)) =
    trace w ++ [ Call PlayerInterrupt true; SetIsRecording true;
                 SetRecordingDuration 0; Call RecorderRecord false ] /\
  isRecording (ui (snd (handlePushToTalk w))) = true /\
  recordingDuration (ui (snd (handlePushToTalk w))) = 0 /\
  recordingTimer (ui (snd (handlePushToTalk w))) = recordingTimer (ui w) /\
  active_timers (snd (handlePushToTalk w)) = active_timers w.
Proof.
  intros Ec Ev Er Hi Hr. open_world w. unfold handlePushToTalk. js_run.
  rewrite Ec, Ev, Er. js_run. revert Hi.
  destruct (wsp_interrupt ply) as [[o|e'] p1]; js_run; [intros _|discriminate].
  rewrite Hr. js_run. rewrite <- ?app_assoc. repeat split.
Qed.

End Capture.

Lemma toggle_listening_round_trip_witness :
  exists w1 w2 new,
    toggleListening connected_world = (Return tt, w1) /\
    toggleListening w1 = (Return tt, w2) /\
    isListening (ui w1) = true /\
    isListening (ui w2) = false /\
    trace w2 = trace connected_world ++ new /\
    create_requests new = 1%nat.
Proof.
  pose (w1 := snd (toggleListening connected_world)).
  pose (w2 := snd (toggleListening w1)).
  assert (H1 : toggleListening connected_world = (Return tt, w1))
    by (vm_compute; reflexivity).
  assert (H2 : toggleListening w1 = (Return tt, w2)) by (vm_compute; reflexivity).
  destruct (toggle_listening_round_trip connected_world) as (_ & _ & _ & Hround).
  destruct (Hround w1 w2 eq_refl H1 H2) as (Hoff & new & Ht & Hc & _).
  exists w1, w2, new. repeat split; assumption || (vm_compute; reflexivity).
Defined.

Lemma push_to_talk_is_gated_witness :
  handlePushToTalk (fresh_world true) = (Return tt, fresh_world true) /\
  exists w1,
    handlePushToTalk connected_world = (Return tt, w1) /\
    isRecording (ui w1) = true /\
    handlePushToTalk w1 = (Return tt, w1).
Proof.
  destruct (push_to_talk_is_gated (fresh_world true)) as [Hgate _].
  destruct (push_to_talk_is_gated connected_world) as [_ Hbegin].
  split; [apply Hgate; left; reflexivity|].
  pose (w1 := snd (handlePushToTalk connected_world)).
  assert (H1 : handlePushToTalk connected_world = (Return tt, w1))
    by (vm_compute; reflexivity).
  destruct (Hbegin w1 eq_refl eq_refl eq_refl H1) as (Hrec & _ & _ & _ & Hagain).
  exists w1. repeat split; assumption.
Defined.

Lemma failed_pause_leaves_timer_running_witness :
  fst (handlePushToTalkEnd faulty_recording_world) = Throw (Rejected "device unavailable") /\
  isRecording (ui (snd (handlePushToTalkEnd faulty_recording_world))) = false /\
  active_timers (snd (handlePushToTalkEnd faulty_recording_world)) = [1%positive].
Proof.
  assert (Hr : isRecording (ui faulty_recording_world) = true)
    by (vm_compute; reflexivity).
  assert (Hp : rec_pause (recorder faulty_recording_world) =
               (Throw (Rejected "device unavailable"), FaultyRecorder))
    by (vm_compute; reflexivity).
  destruct (failed_pause_leaves_timer_running faulty_recording_world
              (Rejected "device unavailable") FaultyRecorder Hr Hp)
    as (Hthrow & _ & Hflag & _ & Htimers & _).
  split; [exact Hthrow|]. split; [exact Hflag|]. exact Htimers.
Defined.

Lemma failed_record_shows_recording_witness :
  fst (handlePushToTalk faulty_world) = Throw (Rejected "device unavailable") /\
  isRecording (ui (snd (handlePushToTalk faulty_world))) = true /\
  active_timers (snd (handlePushToTalk faulty_world)) = [].
Proof.
  assert (Hc : isConnected (ui faulty_world) = true) by (vm_compute; reflexivity).
  assert (Hv : isVADMode (ui faulty_world) = false) by (vm_compute; reflexivity).
  assert (Hr : isRecording (ui faulty_world) = false) by (vm_compute; reflexivity).
  assert (Hi : is_return (fst (wsp_interrupt (player faulty_world))) = true)
    by (vm_compute; reflexivity).
  assert (Hrec : rec_record (recorder faulty_world) =
                 (Throw (Rejected "device unavailable"), FaultyRecorder))
    by (vm_compute; reflexivity).
  destruct (failed_record_shows_recording faulty_world
              (Rejected "device unavailable") FaultyRecorder Hc Hv Hr Hi Hrec)
    as (Hthrow & _ & Hflag & _ & _ & Htimers).
  split; [exact Hthrow|]. split; [exact Hflag|]. exact Htimers.
Defined.

(** ** Conversation updates that fail, and mounting *)

Section Setup.

Context {R P C : Type}.
Context `{!WavRecorder R, !WavStreamPlayer P, !RealtimeClient C}.

(** X14. If decoding the audio of a completed item rejects, the
    conversation.updated handler rejects before it reaches setItems: the
    item list of the page is not refreshed and no item object changes,
    although an audio delta carried by the event has already been enqueued
    to the playback device. *)
Theorem failed_decode_skips_item_refresh
    (w : world R P C) (item : loc) (it : Item) (delta : option Delta)
    (a : list Z) (e : js_error) :
  heap w !! item = Some it ->
  status it = "completed" ->
  audio (formatted it) = Some a ->
  a <> [] ->
  rec_decode (R := R) a 24000 24000 = Throw e ->
  (forall chunk,
      delta ≫= delta_audio = Some chunk ->
      is_return (fst (wsp_add16BitPCM chunk (id it) (player w))) = true) ->
  fst (on_conversation_updated item delta w) = Throw e /\
  items (ui (snd (on_conversation_updated item delta w))) = items (ui w) /\
  heap (snd (on_conversation_updated item delta w)) = heap w /\
  trace (snd (on_conversation_updated item delta w)) =
    trace w ++
      match delta ≫= delta_audio with
      | Some chunk => [Call (PlayerAdd16BitPCM chunk (id it)) true]
      | None => []
      end ++ [Call (RecorderDecode a 24000 24000) false].
Proof.
  intros Hit Hs Ha Hne Hd Hadd. apply truthy_length_nonempty in Hne.
  open_world w. unfold on_conversation_updated. js_run.
  destruct (delta ≫= delta_audio) as [chunk|]; js_run; rewrite Hit; js_run.
  - specialize (Hadd chunk eq_refl). revert Hadd.
    destruct (wsp_add16BitPCM chunk (id it) ply) as [[[]|e'] p1]; js_run;
      [intros _|discriminate].
    rewrite Hit. js_run. rewrite Ha. js_run.
    rewrite (bool_decide_eq_true_2 _ Hs), Hne. js_run. rewrite Hd. js_run.
    rewrite <- ?app_assoc. repeat split.
  - rewrite Ha. js_run.
    rewrite (bool_decide_eq_true_2 _ Hs), Hne. js_run. rewrite Hd. js_run.
    repeat split.
Qed.

(** A mount that stops at the [n]-th command of the script. *)
Ltac mount_cut n c :=
  split; [intros [=]|];
  split; [|split; reflexivity];
  intros ? _; split; [reflexivity|];
  eexists; split; [rewrite <- ?app_assoc; reflexivity|];
  apply (cut_short_at n (mount_script []) c); reflexivity.

(** X15. Mounting the page configures the client in a fixed order: the
    instructions, the transcription model, the set_memory tool, the
    edit_email_marketing tool, the four event subscriptions, and then the
    items of the client are loaded into the page. When it completes that
    script is its trace; when a client command throws the trace is the
    script cut short there and the page is left as it was. The capture
    and playback devices are never commanded. *)
Theorem mount_configures_client_in_order (w : world R P C) :
  (fst (mount w) = Return tt ->
   trace (snd (mount w)) = trace w ++ mount_script (rc_getItems (client (snd (mount w)))) /\
   ui (snd (mount w)) = with_items (rc_getItems (client (snd (mount w)))) (ui w)) /\
  (forall e,
      fst (mount w) = Throw e ->
      ui (snd (mount w)) = ui w /\
      exists new, trace (snd (mount w)) = trace w ++ new /\ cut_short (mount_script []) new) /\
  recorder (snd (mount w)) = recorder w /\
  player (snd (mount w)) = player w.
Proof.
  open_world w. unfold mount. js_run.
  destruct (rc_updateSession (upd_instructions instructions) cli) as [[[]|e1] c1]; js_run;
    [|mount_cut 0%nat (ClientUpdateSession (upd_instructions instructions))].
  destruct (rc_updateSession (upd_input_audio_transcription "whisper-1") c1)
    as [[[]|e2] c2]; js_run;
    [|mount_cut 1%nat (ClientUpdateSession (upd_input_audio_transcription "whisper-1"))].
  destruct (rc_addTool "set_memory" c2) as [[[]|e3] c3]; js_run;
    [|mount_cut 2%nat (ClientAddTool "set_memory")].
  destruct (rc_addTool "edit_email_marketing" c3) as [[[]|e4] c4]; js_run;
    [|mount_cut 3%nat (ClientAddTool "edit_email_marketing")].
  destruct (rc_on "realtime.event" c4) as [[[]|e5] c5]; js_run;
    [|mount_cut 4%nat (ClientOn "realtime.event")].
  destruct (rc_on "error" c5) as [[[]|e6] c6]; js_run;
    [|mount_cut 5%nat (ClientOn "error")].
  destruct (rc_on "conversation.interrupted" c6) as [[[]|e7] c7]; js_run;
    [|mount_cut 6%nat (ClientOn "conversation.interrupted")].
  destruct (rc_on "conversation.updated" c7) as [[[]|e8] c8]; js_run;
    [|mount_cut 7%nat (ClientOn "conversation.updated")].
  split; [|split; [intros e [=]|split; reflexivity]].
  intros _. rewrite <- ?app_assoc. split; reflexivity.
Qed.

End Setup.

Lemma failed_decode_skips_item_refresh_witness :
  let it := {| id := "x"; role := Some "assistant"; status := "completed";
               formatted := {| audio := Some [1; 2; 3]; file := None;
                               transcript := None; text := None |} |} in
  let w := mkWorld (ui connected_world) FaultyRecorder (SimPlayer None)
             (SimClient true true [1%positive]) {[ 1%positive := it ]}
             1%positive [] [] in
  let delta := Some {| delta_audio := Some [7; 8] |} in
  fst (on_conversation_updated 1%positive delta w) = Throw (Rejected "device unavailable") /\
  items (ui (snd (on_conversation_updated 1%positive delta w))) = [] /\
  trace (snd (on_conversation_updated 1%positive delta w)) =
    [Call (PlayerAdd16BitPCM [7; 8] "x") true; Call (RecorderDecode [1; 2; 3] 24000 24000) false].
Proof.
  intros it w delta.
  assert (Hheap : heap w !! 1%positive = Some it) by (vm_compute; reflexivity).
  assert (Hd : rec_decode (R := faulty_recorder) [1; 2; 3] 24000 24000 =
               Throw (Rejected "device unavailable")) by reflexivity.
  assert (Hadd : forall chunk,
             delta ≫= delta_audio = Some chunk ->
             is_return (fst (wsp_add16BitPCM chunk (id it) (player w))) = true)
    by (intros chunk _; reflexivity).
  destruct (failed_decode_skips_item_refresh w 1%positive it delta [1; 2; 3]
              (Rejected "device unavailable") Hheap eq_refl eq_refl)
    as (Hthrow & Hitems & _ & Htrace); [discriminate|exact Hd|exact Hadd|].
  split; [exact Hthrow|]. split; [exact Hitems|]. exact Htrace.
Defined.

Lemma mount_configures_client_in_order_witness :
  trace (snd (mount (fresh_world true))) = mount_script [] /\
  items (ui (snd (mount (fresh_world true)))) = [].
Proof.
  assert (Hrun : fst (mount (fresh_world true)) = Return tt) by (vm_compute; reflexivity).
  destruct (mount_configures_client_in_order (fresh_world true)) as (Hdone & _).
  destruct (Hdone Hrun) as [Ht Hui].
  split.
  - rewrite Ht. vm_compute. reflexivity.
  - rewrite Hui. vm_compute. reflexivity.
Defined.

(** ** What never commands the capture device *)

Lemma recorder_commands_snoc (tr : list effect) (e : effect) :
  recorder_commands (tr ++ [e]) = recorder_commands tr ++ recorder_commands [e].
Proof.
  induction tr as [|a tr IH]; [reflexivity|].
  destruct a as [[] b| | | | | | | | | | | | | | | |]; cbn [app recorder_commands];
    rewrite IH; reflexivity.
Qed.

Lemma session_updates_app (tr tr' : list effect) :
  session_updates (tr ++ tr') = session_updates tr ++ session_updates tr'.
Proof.
  induction tr as [|a tr IH]; [reflexivity|].
  destruct a as [[] b| | | | | | | | | | | | | | | |]; cbn [app session_updates];
    rewrite IH; reflexivity.
Qed.

Section Quiet.

Context {R P C : Type}.
Context `{!WavRecorder R, !WavStreamPlayer P, !RealtimeClient C}.

#[local] Abbreviation quiet := (leaves (R := R) (P := P) (C := C) capture_view).

Lemma capture_view_log (e : effect) (w : world R P C) :
  recorder_commands [e] = [] -> capture_view (log e w) = capture_view w.
Proof.
  intros He. unfold capture_view, log. cbn [recorder trace].
  now rewrite recorder_commands_snoc, He, app_nil_r.
Qed.

Lemma quiet_ret {A : Type} (a : A) : quiet (ret a).
Proof. intros w. reflexivity. Qed.

Lemma quiet_bind {A B : Type} (m : M R P C A) (k : A -> M R P C B) :
  quiet m -> (forall a, quiet (k a)) -> quiet (bind m k).
Proof.
  intros Hm Hk w. unfold bind. specialize (Hm w).
  destruct (m w) as [[a|e] w']; cbn [snd] in *.
  - rewrite Hk. exact Hm.
  - exact Hm.
Qed.

Lemma quiet_set_state (g : page -> page) (e : effect) :
  recorder_commands [e] = [] -> quiet (set_state g e).
Proof. intros He w. unfold set_state. cbn [snd]. now rewrite capture_view_log. Qed.

Lemma quiet_on_player {A : Type} (c : command) (g : P -> completion A * P) :
  (forall b, recorder_commands [Call c b] = []) -> quiet (on_player c g).
Proof.
  intros Hc w. unfold on_player. destruct (g (player w)) as [r x]. cbn [snd].
  now rewrite capture_view_log.
Qed.

Lemma quiet_on_client (c : command) (g : C -> completion unit * C) :
  (forall b, recorder_commands [Call c b] = []) -> quiet (on_client c g).
Proof.
  intros Hc w. unfold on_client. destruct (g (client w)) as [r x]. cbn [snd].
  now rewrite capture_view_log.
Qed.

Lemma quiet_decode (a : list Z) (x y : Z) : quiet (decode a x y).
Proof. intros w. unfold decode. cbn [snd]. now rewrite capture_view_log. Qed.

Lemma quiet_render : quiet render.
Proof. intros w. reflexivity. Qed.

Lemma quiet_getItems : quiet getItems.
Proof. intros w. reflexivity. Qed.

Lemma quiet_deref (l : loc) : quiet (deref l).
Proof. intros w. unfold deref. destruct (heap w !! l); reflexivity. Qed.

Lemma quiet_assign_file (l : loc) (x : WavFile) : quiet (assign_file l x).
Proof. intros w. unfold assign_file. cbn [snd]. now rewrite capture_view_log. Qed.

Lemma quiet_console_error (msg : string) : quiet (console_error msg).
Proof. intros w. unfold console_error. cbn [snd]. now rewrite capture_view_log. Qed.

Lemma quiet_setRealtimeEvents_with
    (g : list RealtimeEvent -> completion (list RealtimeEvent)) :
  quiet (setRealtimeEvents_with g).
Proof.
  intros w. unfold setRealtimeEvents_with.
  destruct (g (realtimeEvents (ui w))); [|reflexivity].
  now apply quiet_set_state.
Qed.

Lemma quiet_setMemoryKv_with (g : gmap string string -> gmap string string) :
  quiet (setMemoryKv_with g).
Proof. intros w. unfold setMemoryKv_with. now apply quiet_set_state. Qed.

Lemma quiet_setEmailContent_with (g : EmailMarketingContent -> EmailMarketingContent) :
  quiet (setEmailContent_with g).
Proof. intros w. unfold setEmailContent_with. now apply quiet_set_state. Qed.

Lemma quiet_setRecordingDuration_with (g : Z -> Z) :
  quiet (setRecordingDuration_with g).
Proof. intros w. unfold setRecordingDuration_with. now apply quiet_set_state. Qed.

End Quiet.

Create HintDb quiet.

#[global] Hint Resolve quiet_ret quiet_decode quiet_render quiet_getItems quiet_deref
  quiet_assign_file quiet_console_error quiet_setRealtimeEvents_with
  quiet_setMemoryKv_with quiet_setEmailContent_with
  quiet_setRecordingDuration_with : quiet.

(** Decomposes a goal about the capture device along the handler. *)
Ltac quiet :=
  autounfold with frame;
  repeat first
    [ apply quiet_bind; [|intros ?]
    | apply quiet_set_state; reflexivity
    | apply quiet_on_player; intros ?; reflexivity
    | apply quiet_on_client; intros ?; reflexivity
    | solve [auto with quiet]
    | match goal with
      | |- leaves _ (if ?b then _ else _) => destruct b
      | |- leaves _ (match ?x with _ => _ end) => destruct x
      end ].

Section Separation.

Context {R P C : Type}.
Context `{!WavRecorder R, !WavStreamPlayer P, !RealtimeClient C}.

(** X16. Only connect, disconnect, the turn-mode change, toggleListening
    and the two push-to-talk handlers command the capture device. Every
    other operation (mounting, the handlers of the client's events, the
    tool calls, sending text, typing, the timer) leaves the capture device
    in the state it was in and sends it no command, however the operation
    completes. *)
Theorem capture_is_commanded_by_the_user_only (op : operation) (w : world R P C) :
  commands_capture op = false ->
  recorder (snd (run op w)) = recorder w /\
  recorder_commands (trace (snd (run op w))) = recorder_commands (trace w).
Proof.
  intros Hop.
  enough (Hv : capture_view (snd (run op w)) = capture_view w)
    by (unfold capture_view in Hv; now injection Hv).
  revert w. change (leaves capture_view (run op)).
  destruct op; cbn [commands_capture run] in *; try discriminate;
    autounfold with handlers; quiet.
Qed.

(** X17. Each firing of the duration timer adds one to the recording
    duration and changes nothing else of the page: after [n] firings the
    duration has grown by [n]. The timer callback does not look at the
    recording flag, so it counts for as long as the timer runs. *)
Theorem recording_duration_counts_ticks (n : nat) (w : world R P C) :
  ui (run_all (replicate n OpRecordingTimer) w) =
    with_recordingDuration (recordingDuration (ui w) + Z.of_nat n) (ui w) /\
  active_timers (run_all (replicate n OpRecordingTimer) w) = active_timers w.
Proof.
  revert w. induction n as [|n IH]; intros w.
  - cbn. rewrite Z.add_0_r. now destruct (ui w).
  - change (run_all (replicate (S n) OpRecordingTimer) w)
      with (run_all (replicate n OpRecordingTimer) (snd (run OpRecordingTimer w))).
    destruct (IH (snd (run OpRecordingTimer w))) as [Hui Hat].
    rewrite Hui, Hat. split; [|reflexivity].
    cbn. unfold with_recordingDuration. cbn. f_equal. lia.
Qed.

(** X18. Neither connect nor disconnect touches the flags of the turn
    mode: the voice-activity flag, the listening flag and the recording
    flag are the same after any sequence of connects and disconnects. A
    fresh connect that completes nevertheless ends by setting the remote
    session's turn detection to null, so a page left in voice-activity
    mode shows that mode over a session that is in manual mode. *)
Theorem turn_mode_flags_survive_reconnect (w : world R P C) :
  (forall ops,
      forallb is_connect_or_disconnect ops = true ->
      isVADMode (ui (run_all ops w)) = isVADMode (ui w) /\
      isListening (ui (run_all ops w)) = isListening (ui w) /\
      isRecording (ui (run_all ops w)) = isRecording (ui w)) /\
  (forall now,
      isConnected (ui w) = false ->
      fst (connectConversation now w) = Return tt ->
      last (session_updates (trace (snd (connectConversation now w)))) =
        Some (upd_turn_detection None) /\
      isVADMode (ui (snd (connectConversation now w))) = isVADMode (ui w)).
Proof.
  split.
  - intros ops. revert w. induction ops as [|op ops IH]; intros w Hops; [repeat split|].
    cbn [forallb] in Hops. apply andb_prop in Hops as [Hop Hops].
    change (run_all (op :: ops) w) with (run_all ops (snd (run op w))).
    destruct (IH (snd (run op w)) Hops) as (-> & -> & ->).
    destruct op; try discriminate; cbn [run].
    + destruct (isConnected (ui w)) eqn:E.
      * rewrite connect_when_connected by exact E. now rewrite disconnect_page.
      * now rewrite fresh_connect_page.
    + now rewrite disconnect_page.
  - intros now E Hrun. split; [|now rewrite fresh_connect_page].
    destruct (fresh_connect_cases now w E) as [[_ Ht]|(e & new & He & _)];
      [|congruence].
    rewrite Ht, session_updates_app.
    change (session_updates (connect_script now (rc_getItems (client w))))
      with ([] ++ [upd_turn_detection None]).
    rewrite app_nil_l. apply last_snoc.
Qed.

End Separation.

Lemma capture_is_commanded_by_the_user_only_witness :
  let w := snd (changeTurnEndType "server_vad" connected_world) in
  rec_getStatus (recorder w) = "recording" /\
  rec_getStatus (recorder (snd (run OpConversationInterrupted w))) = "recording" /\
  rec_getStatus (recorder (snd (run (OpError "socket closed") w))) = "recording".
Proof.
  intros w.
  assert (Hst : rec_getStatus (recorder w) = "recording") by (vm_compute; reflexivity).
  destruct (capture_is_commanded_by_the_user_only OpConversationInterrupted w eq_refl)
    as [-> _].
  destruct (capture_is_commanded_by_the_user_only (OpError "socket closed") w eq_refl)
    as [-> _].
  repeat split; exact Hst.
Defined.

Lemma turn_mode_flags_survive_reconnect_witness :
  let w := snd (disconnectConversation (snd (changeTurnEndType "server_vad" connected_world))) in
  let w' := snd (connectConversation "2024-10-01T00:00:09.000Z" w) in
  isVADMode (ui w') = true /\
  last (session_updates (trace w')) = Some (upd_turn_detection None).
Proof.
  intros w w'.
  assert (Hc : isConnected (ui w) = false) by (vm_compute; reflexivity).
  assert (Hrun : fst (connectConversation "2024-10-01T00:00:09.000Z" w) = Return tt)
    by (vm_compute; reflexivity).
  assert (Hvad : isVADMode (ui w) = true) by (vm_compute; reflexivity).
  destruct (turn_mode_flags_survive_reconnect w) as [_ Hfresh].
  destruct (Hfresh "2024-10-01T00:00:09.000Z" Hc Hrun) as [Hlast Hflag].
  split; [|exact Hlast].
  unfold w'. rewrite Hflag. exact Hvad.
Defined.

(** ** The turn mode, for every value and connection state *)

Section TurnModeTable.

Context {R P C : Type}.
Context `{!WavRecorder R, !WavStreamPlayer P, !RealtimeClient C}.

(** Runs the adapter commands and the tests of [changeTurnEndType] that
    are still open, one after the other. *)
Ltac turn_mode_cases :=
  repeat
    (js_run;
     match goal with
     | |- context [bool_decide (?v = "none")] =>
         destruct (bool_decide (v = "none")) eqn:?
     | |- context [bool_decide (?v = "server_vad")] =>
         destruct (bool_decide (v = "server_vad")) eqn:?
     | |- context [bool_decide (rec_getStatus ?r = "recording")] =>
         destruct (bool_decide (rec_getStatus r = "recording")) eqn:?
     | |- context [rc_isConnected ?c] =>
         is_var c; destruct (rc_isConnected c) eqn:?
     | |- context [rec_pause ?r] =>
         is_var r; destruct (rec_pause r) as [[[]|?] ?] eqn:?
     | |- context [rec_record ?r] =>
         is_var r; destruct (rec_record r) as [[[]|?] ?] eqn:?
     | |- context [rc_updateSession ?u ?c] =>
         is_var c; destruct (rc_updateSession u c) as [[[]|?] ?] eqn:?
     end).

(** X19. Whatever the value and the state, a turn-mode change sends at
    most one session update, the one for its value, and any value other
    than 'none' asks for server voice-activity detection. When the change
    completes, the voice-activity flag is set exactly for the value
    'server_vad', and the page listens exactly when that value was given
    and the client is connected: asked for voice-activity mode while the
    client is not connected, the page enters the mode without listening. *)
Theorem turn_mode_change_table (value : string) (w : world R P C) :
  (exists new,
      trace (snd (changeTurnEndType value w)) = trace w ++ new /\
      (session_updates new = [] \/ session_updates new = [turn_detection_of value])) /\
  (value <> "none" ->
   turn_detection_of value = upd_turn_detection (Some "server_vad")) /\
  (fst (changeTurnEndType value w) = Return tt ->
   isVADMode (ui (snd (changeTurnEndType value w))) = bool_decide (value = "server_vad") /\
   isListening (ui (snd (changeTurnEndType value w))) =
     bool_decide (value = "server_vad")
     && rc_isConnected (client (snd (changeTurnEndType value w)))).
Proof.
  split; [|split].
  - open_world w. unfold changeTurnEndType. turn_mode_cases;
      eexists; (split; [rewrite <- ?app_assoc; reflexivity|]); cbn; auto.
  - intros Hv. unfold turn_detection_of.
    destruct (decide (value = "none")); [contradiction|reflexivity].
  - open_world w. unfold changeTurnEndType. turn_mode_cases;
      try discriminate; intros _; cbn;
      repeat match goal with
        | H : rc_isConnected _ = _ |- _ => rewrite H
        end;
      split; reflexivity.
Qed.

End TurnModeTable.

Lemma turn_mode_change_table_witness :
  fst (changeTurnEndType "server_vad" (fresh_world true)) = Return tt /\
  isVADMode (ui (snd (changeTurnEndType "server_vad" (fresh_world true)))) = true /\
  isListening (ui (snd (changeTurnEndType "server_vad" (fresh_world true)))) = false.
Proof.
  assert (Hrun : fst (changeTurnEndType "server_vad" (fresh_world true)) = Return tt)
    by (vm_compute; reflexivity).
  destruct (turn_mode_change_table "server_vad" (fresh_world true)) as (_ & _ & Hdone).
  destruct (Hdone Hrun) as [Hvad Hl].
  split; [exact Hrun|]. split.
  - rewrite Hvad. reflexivity.
  - rewrite Hl. vm_compute. reflexivity.
Defined.
